(** * Theme selectors of wp-calypso (client/state/themes/selectors.js)

    A shallow embedding of the derived-state accessors of the themes
    subsystem, and of the currency formatter of the checkout demo page.

    The selectors are pure functions of the global state tree.  The
    memoisation added by [createSelector] caches results per state slice and
    argument key and does not change what a selector returns; it is left out
    of the embedding. *)

From Stdlib Require Import String Ascii List ZArith Bool Lia PrimFloat.
From stdpp Require Import base decidable countable option list gmap strings.

(** ** JavaScript values *)

(** The primitive values the selectors receive and return: theme ids, URLs,
    prices and flags. *)
Inductive jsval : Type :=
| JUndefined
| JNull
| JBool (b : bool)
| JStr (s : string).

#[global] Instance jsval_eq_dec : EqDecision jsval.
Proof. solve_decision. Defined.

(** A reference to an object, or one of the two absent values. *)
Inductive nullable (A : Type) : Type :=
| ONull
| OUndefined
| OObj (a : A).

Arguments ONull {A}.
Arguments OUndefined {A}.
Arguments OObj {A} a.

(** ToBoolean. *)
Definition truthy (v : jsval) : bool :=
  match v with
  | JUndefined | JNull => false
  | JBool b => b
  | JStr s => negb (String.eqb s "")
  end.

(** ToBoolean of an object reference: every object is truthy. *)
Definition truthy_obj {A : Type} (o : nullable A) : bool :=
  match o with
  | OObj _ => true
  | _ => false
  end.

(** [a === b] on primitives. *)
Definition strict_eq (a b : jsval) : bool := bool_decide (a = b).

(** ToString, as applied by [+] with a string operand and by template
    literals. *)
Definition to_string (v : jsval) : string :=
  match v with
  | JUndefined => "undefined"
  | JNull => "null"
  | JBool true => "true"
  | JBool false => "false"
  | JStr s => s
  end.

(** [a && b] returns one of its operands. *)
Definition js_and (a b : jsval) : jsval := if truthy a then b else a.

(** ** Strings *)

(** [s.indexOf(pat)]: the position of the first occurrence of [pat]. *)
Fixpoint indexOf (pat s : string) : option nat :=
  if String.prefix pat s then Some 0
  else match s with
       | EmptyString => None
       | String _ s' => S <$> indexOf pat s'
       end.

(** [s.replace(pat, repl)] for a string pattern: only the first occurrence is
    replaced (the replacement holds no [$] pattern here). *)
Definition replace (pat repl s : string) : string :=
  match indexOf pat s with
  | None => s
  | Some pos =>
      let preceding := substring 0 pos s in
      let following := substring (pos + String.length pat)
                                 (String.length s - (pos + String.length pat)) s in
      preceding +:+ repl +:+ following
  end.

(** lodash [includes(collection, value)] for a string value: substring test
    on a string collection; [null], [undefined] and booleans hold nothing. *)
Definition includes_str (collection : jsval) (value : string) : bool :=
  match collection with
  | JStr s => bool_decide (is_Some (indexOf value s))
  | _ => false
  end.

(** ** Data model *)

(** A site identifier as it keys the per-site collections: the two
    directories and numeric site ids.  An optional site id is an
    [option site_id]; [None] is [undefined] (or [null]). *)
Inductive site_id : Type :=
| Wpcom
| Wporg
| SiteNum (n : Z).

#[global] Instance site_id_eq_dec : EqDecision site_id.
Proof. solve_decision. Defined.

#[global] Instance site_id_countable : Countable site_id.
Proof.
  refine (inj_countable'
    (λ s, match s with
          | Wpcom => inl true | Wporg => inl false | SiteNum n => inr n
          end)
    (λ e, match e with
          | inl true => Wpcom | inl false => Wporg | inr n => SiteNum n
          end) _).
  by intros [].
Defined.

(** ToBoolean of an optional site id: the number [0] is falsy. *)
Definition truthy_site (siteId : option site_id) : bool :=
  match siteId with
  | None => false
  | Some (SiteNum n) => negb (n =? 0)%Z
  | Some _ => true
  end.

(** A theme object.  [addr] is the identity of the object (what [===] and
    SameValueZero compare); the other fields are the properties the selectors
    read, [JUndefined] when the property is missing. *)
Record Theme : Type := {
  addr : N;
  id : string;
  stylesheet : jsval;
  price : jsval;
  demo_uri : jsval;
}.

(** Modelled from the spec: a theme query, "a set of filter fields (search
    text, filter tags, tier, page number)"; the query utilities are not part
    of the sources. *)
Record Query : Type := {
  search : option string;
  filter : option string;
  tier : option string;
  page : option Z;
}.

(** Modelled from the spec: the per-site theme collection accessor, consumed
    as a collaborator with methods [getItem(id)] and [getItems(query)], the
    latter yielding [null] or an array whose entries may be [undefined]
    (unresolved). *)
Record ThemeQueryManager : Type := {
  getItem : jsval → nullable Theme;
  getItems : Query → nullable (list (nullable Theme));
}.

(** The single-slot record of the auto-loading-homepage warning. *)
Record HomepageWarning : Type := {
  hw_themeId : string;
  hw_show : bool;
  hw_accepted : bool;
}.

(** [state.themes], restricted to the slices the embedded selectors read. *)
Record ThemesState : Type := {
  queries : gmap site_id ThemeQueryManager;
  activeThemes : gmap site_id string;
  themeHasAutoLoadingHomepageWarning : option HomepageWarning;
}.

(** A site purchase, as [getSitePurchases] lists them. *)
Record Purchase : Type := {
  productSlug : string;
  meta : jsval;
}.

(** The global state tree and what the selectors import from outside the
    themes module: sibling selectors, utilities, constants, configuration
    and translation.  None of these is defined in the sources; each is a
    parameter.  Selectors used in a condition only are given by the
    truthiness of their result. *)
Class Environment : Type := {
  State : Type;
  themes : State → ThemesState;
  (* state/sites/selectors *)
  getCustomizerUrl : State → option site_id → jsval;
  getSiteSlug : State → option site_id → jsval;
  getSiteOption : State → option site_id → string → jsval;
  isJetpackSite : State → option site_id → bool;
  canJetpackSiteManage : State → option site_id → bool;
  hasJetpackSiteJetpackThemesExtendedFeatures : State → option site_id → bool;
  (* state/purchases/selectors, state/sites/plans/selectors *)
  getSitePurchases : State → option site_id → list Purchase;
  hasFeature : State → option site_id → string → bool;
  (* ./utils *)
  isPremium : nullable Theme → bool;
  oldShowcaseUrl : string;
  (* lib/plans/constants *)
  FEATURE_UNLIMITED_PREMIUM_THEMES : string;
  (* config, i18n-calypso *)
  config_isEnabled : string → bool;
  translate : string → string;
}.

(** ** Selectors *)

(** [state.themes.queries[ siteId ]].  The collections are keyed by the two
    directories and by site ids; under an [undefined] site id there is
    none. *)
Definition manager_of `{Environment} (state : State) (siteId : option site_id)
  : option ThemeQueryManager :=
  siteId ≫= λ s, queries (themes state) !! s.

Definition getTheme `{Environment} (state : State) (siteId : option site_id)
    (themeId : jsval) : nullable Theme :=
  match manager_of state siteId with
  | None => ONull
  | Some manager => getItem manager themeId
  end.

(** lodash [find]: the first element the predicate holds of, [undefined]
    when there is none. *)
Definition lodash_find (l : list (option site_id))
    (predicate : option site_id → bool) : option site_id :=
  default None (List.find predicate l).

Definition getCanonicalTheme `{Environment} (state : State)
    (siteId : option site_id) (themeId : jsval) : nullable Theme :=
  let source :=
    lodash_find [Some Wpcom; Some Wporg; siteId]
                (λ s, truthy_obj (getTheme state s themeId)) in
  getTheme state source themeId.

(** SameValueZero on array entries: objects are compared by identity. *)
Definition same_value_zero (a b : nullable Theme) : bool :=
  match a, b with
  | ONull, ONull => true
  | OUndefined, OUndefined => true
  | OObj x, OObj y => (addr x =? addr y)%N
  | _, _ => false
  end.

(** lodash [includes(array, value)]. *)
Definition lodash_includes (array : list (nullable Theme))
    (value : nullable Theme) : bool :=
  existsb (λ entry, same_value_zero entry value) array.

(** lodash [uniq]: walks the array and pushes a value onto the result unless
    an entry of the result is already the same value. *)
Definition uniq_push (result : list (nullable Theme)) (value : nullable Theme)
  : list (nullable Theme) :=
  if existsb (same_value_zero value) result then result
  else result ++ [value].

Definition uniq (array : list (nullable Theme)) : list (nullable Theme) :=
  fold_left uniq_push array [].

Definition getThemesForQuery `{Environment} (state : State)
    (siteId : option site_id) (query : Query)
  : nullable (list (nullable Theme)) :=
  match manager_of state siteId with
  | None => ONull
  | Some manager =>
      match getItems manager query with
      | OObj themes =>
          if lodash_includes themes OUndefined then ONull
          else OObj (uniq themes)
      | _ => ONull
      end
  end.

Definition isWpcomTheme `{Environment} (state : State) (themeId : jsval) : bool :=
  truthy_obj (getTheme state (Some Wpcom) themeId).

Definition isWporgTheme `{Environment} (state : State) (themeId : jsval) : bool :=
  truthy_obj (getTheme state (Some Wporg) themeId).

Definition isThemePremium `{Environment} (state : State) (themeId : jsval) : bool :=
  let theme := getTheme state (Some Wpcom) themeId in
  isPremium theme.

(** The site part that several URL selectors append:
    [siteId ? `/${ getSiteSlug( state, siteId ) }` : '']. *)
Definition site_suffix `{Environment} (state : State) (siteId : option site_id)
  : string :=
  if truthy_site siteId then "/" +:+ to_string (getSiteSlug state siteId)
  else "".

Definition getThemeDetailsUrl `{Environment} (state : State) (themeId : jsval)
    (siteId : option site_id) : jsval :=
  if negb (truthy themeId) then JNull
  else if isJetpackSite state siteId &&
          negb (config_isEnabled "manage/themes/details/jetpack" &&
                canJetpackSiteManage state siteId &&
                hasJetpackSiteJetpackThemesExtendedFeatures state siteId)
  then JStr (to_string (getSiteOption state siteId "admin_url") +:+
             "themes.php?theme=" +:+ to_string themeId)
  else
    let baseUrl :=
      if config_isEnabled "manage/themes/details"
      then "/theme/" +:+ to_string themeId
      else oldShowcaseUrl +:+ to_string themeId in
    JStr (baseUrl +:+ site_suffix state siteId).

Definition getThemeSupportUrl `{Environment} (state : State) (themeId : jsval)
    (siteId : option site_id) : jsval :=
  if negb (truthy themeId) || negb (isThemePremium state themeId) then JNull
  else
    let sitePart := site_suffix state siteId in
    if config_isEnabled "manage/themes/details"
    then JStr ("/theme/" +:+ to_string themeId +:+ "/setup" +:+ sitePart)
    else JStr (oldShowcaseUrl +:+ sitePart +:+ to_string themeId +:+ "/support").

Definition getThemeHelpUrl `{Environment} (state : State) (themeId : jsval)
    (siteId : option site_id) : jsval :=
  if negb (truthy themeId) then JNull
  else
    let baseUrl :=
      if config_isEnabled "manage/themes/details"
      then "/theme/" +:+ to_string themeId +:+ "/support"
      else oldShowcaseUrl +:+ to_string themeId in
    JStr (baseUrl +:+ site_suffix state siteId).

Definition getThemePurchaseUrl `{Environment} (state : State) (themeId : jsval)
    (siteId : option site_id) : jsval :=
  if isJetpackSite state siteId || negb (isThemePremium state themeId) then JNull
  else JStr ("/checkout/" +:+ to_string (getSiteSlug state siteId) +:+
             "/theme:" +:+ to_string themeId).

Definition getActiveTheme `{Environment} (state : State)
    (siteId : option site_id) : jsval :=
  match siteId ≫= λ s, activeThemes (themes state) !! s with
  | None => JNull
  | Some activeTheme =>
      if truthy (JStr activeTheme)
      then JStr (replace "-wpcom" "" activeTheme)
      else JStr activeTheme
  end.

Definition isThemeActive `{Environment} (state : State) (themeId : jsval)
    (siteId : option site_id) : bool :=
  strict_eq (getActiveTheme state siteId) themeId.

Definition getThemeCustomizeUrl `{Environment} (state : State) (themeId : jsval)
    (siteId : option site_id) : jsval :=
  let customizerUrl := getCustomizerUrl state siteId in
  if negb (truthy_site siteId && truthy themeId) ||
     isThemeActive state themeId siteId
  then customizerUrl
  else
    let separator := if includes_str customizerUrl "?" then "&" else "?" in
    if isJetpackSite state siteId
    then JStr (to_string customizerUrl +:+ separator +:+ "theme=" +:+
               to_string themeId)
    else
      match getTheme state (Some Wpcom) themeId with
      | OObj theme =>
          JStr (to_string customizerUrl +:+ separator +:+ "theme=" +:+
                to_string (stylesheet theme))
      | _ => customizerUrl
      end.

Definition getThemeSignupUrl `{Environment} (state : State) (themeId : jsval)
  : jsval :=
  if negb (truthy themeId) then JNull
  else
    let url := "/start/with-theme?ref=calypshowcase&theme=" +:+ to_string themeId in
    if isThemePremium state themeId then JStr (url +:+ "&premium=true")
    else JStr url.

(** lodash [get( object, key )] on a theme reference: the property, or
    [undefined] when there is no object. *)
Definition get_prop (theme : nullable Theme) (prop : Theme → jsval) : jsval :=
  match theme with
  | OObj t => prop t
  | _ => JUndefined
  end.

Definition getThemeDemoUrl `{Environment} (state : State) (themeId : jsval)
    (siteId : option site_id) : jsval :=
  let theme := getCanonicalTheme state siteId themeId in
  get_prop theme demo_uri.

Definition getThemeForumUrl `{Environment} (state : State) (themeId : jsval)
  : jsval :=
  if isThemePremium state themeId
  then JStr ("//premium-themes.forums.wordpress.com/forum/" +:+ to_string themeId)
  else if isWpcomTheme state themeId
  then JStr "//en.forums.wordpress.com/forum/themes"
  else if isWporgTheme state themeId
  then JStr ("//wordpress.org/support/theme/" +:+ to_string themeId)
  else JNull.

(** lodash [some( purchases, { productSlug: 'premium_theme', meta: themeId } )]:
    a purchase matches when each listed property is strictly equal to the
    given primitive. *)
Definition isThemePurchased `{Environment} (state : State) (themeId : jsval)
    (siteId : option site_id) : bool :=
  let sitePurchases := getSitePurchases state siteId in
  existsb
    (λ purchase,
       String.eqb (productSlug purchase) "premium_theme" &&
       strict_eq (meta purchase) themeId)
    sitePurchases.

Definition isPremiumThemeAvailable `{Environment} (state : State)
    (themeId : jsval) (siteId : option site_id) : bool :=
  isThemePurchased state themeId siteId ||
  hasFeature state siteId FEATURE_UNLIMITED_PREMIUM_THEMES.

Definition getPremiumThemePrice `{Environment} (state : State)
    (themeId : jsval) (siteId : option site_id) : jsval :=
  if negb (isThemePremium state themeId) ||
     isPremiumThemeAvailable state themeId siteId
  then JStr ""
  else if isJetpackSite state siteId
  then JStr (translate "Upgrade")
  else
    let theme := getTheme state (Some Wpcom) themeId in
    get_prop theme price.

(** [get( state.themes, [ 'themeHasAutoLoadingHomepageWarning', key ] )]. *)
Definition get_warning `{Environment} (state : State)
    (prop : HomepageWarning → jsval) : jsval :=
  match themeHasAutoLoadingHomepageWarning (themes state) with
  | None => JUndefined
  | Some warning => prop warning
  end.

Definition getPreActivateThemeId `{Environment} (state : State) : jsval :=
  get_warning state (λ w, JStr (hw_themeId w)).

Definition shouldShowHomepageWarning `{Environment} (state : State)
    (themeId : jsval) : jsval :=
  js_and
    (JBool (strict_eq (get_warning state (λ w, JStr (hw_themeId w))) themeId))
    (get_warning state (λ w, JBool (hw_show w))).

Definition hasAutoLoadingHomepageModalAccepted `{Environment} (state : State)
    (themeId : jsval) : jsval :=
  js_and
    (JBool (strict_eq (get_warning state (λ w, JStr (hw_themeId w))) themeId))
    (get_warning state (λ w, JBool (hw_accepted w))).

(** ** Further selectors *)

(** The result of an expression that reads a property of a value: the value
    it yields, or the [TypeError] thrown when the property is read from
    [null] or [undefined]. *)
Inductive outcome (A : Type) : Type :=
| Returns (a : A)
| TypeError.

Arguments Returns {A} a.
Arguments TypeError {A}.

#[global] Instance Query_eq_dec : EqDecision Query.
Proof. solve_decision. Defined.

(** Modelled from the spec: the paging side of the per-site theme
    collection, "pagination metadata (found count, items per page) supplied
    externally", with the methods [getFound(query)] and
    [getNumberOfPages(query)], [null] ([None]) while the count is unknown, and
    [getItemsIgnoringPage(query)]. *)
Record ThemeQueryManagerPaging : Type := {
  getFound : Query → option Z;
  getNumberOfPages : Query → option Z;
  getItemsIgnoringPage : Query → nullable (list (nullable Theme));
}.

(** [state.themes.recommendedThemes]. *)
Record RecommendedThemes : Type := {
  isLoading : bool;
  recommended : nullable (list Theme);
}.

(** Further slices of [state.themes].  [paging] is
    [state.themes.queries] again, each collection seen through its paging
    methods. *)
Record ThemesStateMore : Type := {
  paging : gmap site_id ThemeQueryManagerPaging;
  queryRequests : gmap string bool;
  themeInstalls : gmap site_id (gmap string bool);
  recommendedThemes : RecommendedThemes;
}.

(** What [getDeserializedThemesQueryDetails] returns: [{ siteId, query }],
    both [undefined] for a key it cannot read. *)
Record QueryDetails : Type := {
  details_siteId : option site_id;
  details_query : option Query;
}.

(** The environment of the further selectors: the slices above and the
    imports the selectors of the first part do not use. *)
Class ThemesEnvironment : Type := {
  themes_environment :: Environment;
  themes_more : State → ThemesStateMore;
  (* state/sites/selectors *)
  isJetpackSiteMultiSite : State → option site_id → bool;
  (* ./utils *)
  getNormalizedThemesQuery : Query → Query;
  getSerializedThemesQuery : Query → option site_id → string;
  getDeserializedThemesQueryDetails : string → QueryDetails;
  getThemeTaxonomySlugs : nullable Theme → string → list string;
  (* ./constants: DEFAULT_THEME_QUERY.page *)
  DEFAULT_THEME_QUERY_page : Z;
}.

(** [`${ themeId }-wpcom`] when the site is a Jetpack site that does not
    hold the theme yet. *)
Definition getSuffixedThemeId `{Environment} (state : State) (themeId : jsval)
    (siteId : option site_id) : jsval :=
  let siteIsJetpack := truthy_site siteId && isJetpackSite state siteId in
  if siteIsJetpack && negb (truthy_obj (getTheme state siteId themeId))
  then JStr (to_string themeId +:+ "-wpcom")
  else themeId.


Definition isRequestingThemesForQuery `{ThemesEnvironment} (state : State)
    (siteId : option site_id) (query : Query) : bool :=
  let serializedQuery := getSerializedThemesQuery query siteId in
  default false (queryRequests (themes_more state) !! serializedQuery).

(** [state.themes.queries[ siteId ]], for its paging methods. *)
Definition paging_of `{ThemesEnvironment} (state : State)
    (siteId : option site_id) : option ThemeQueryManagerPaging :=
  siteId ≫= λ s, paging (themes_more state) !! s.

Definition getThemesLastPageForQuery `{ThemesEnvironment} (state : State)
    (siteId : option site_id) (query : Query) : option Z :=
  match paging_of state siteId with
  | None => None
  | Some manager =>
      match getNumberOfPages manager query with
      | None => None
      | Some pages =>
          if isJetpackSite state siteId then Some 1%Z
          else Some (Z.max pages 1)
      end
  end.

(** The query [{}], the default of an omitted [query] argument. *)
Definition empty_query : Query :=
  {| search := None; filter := None; tier := None; page := None |}.

(** [query.page || DEFAULT_THEME_QUERY.page]. *)
Definition page_or_default `{ThemesEnvironment} (query : Query) : Z :=
  match page query with
  | Some n => if (n =? 0)%Z then DEFAULT_THEME_QUERY_page else n
  | None => DEFAULT_THEME_QUERY_page
  end.

Definition isThemesLastPageForQuery `{ThemesEnvironment} (state : State)
    (siteId : option site_id) (query : option Query) : option bool :=
  let query := default empty_query query in
  match getThemesLastPageForQuery state siteId query with
  | None => None
  | Some lastPage => Some (lastPage =? page_or_default query)%Z
  end.

(** ToBoolean of an optional string property of a query. *)
Definition truthy_field (field : option string) : bool :=
  match field with
  | Some s => negb (String.eqb s "")
  | None => false
  end.

(** [array.filter( theme => ! themeIds.includes( theme.id ) )]: reading
    [theme.id] throws on an entry that is no object. *)
Fixpoint filter_out_ids (themeIds : list string)
    (array : list (nullable Theme)) : outcome (list (nullable Theme)) :=
  match array with
  | [] => Returns []
  | OObj theme :: rest =>
      match filter_out_ids themeIds rest with
      | Returns kept =>
          if bool_decide (id theme ∈ themeIds) then Returns kept
          else Returns (OObj theme :: kept)
      | TypeError => TypeError
      end
  | _ :: rest => TypeError
  end.

(** lodash [flatMap( recommendedThemes, theme => theme.id )]: the ids, none
    for a missing list. *)
Definition recommended_ids (recommendedThemes : nullable (list Theme))
  : list string :=
  match recommendedThemes with
  | OObj themes => id <$> themes
  | _ => []
  end.

(** The function given to [createSelector]; the selector as exported, with
    its cache, is [getThemesForQueryIgnoringPage_cached] below. *)
Definition getThemesForQueryIgnoringPage `{ThemesEnvironment} (state : State)
    (siteId : option site_id) (query : Query)
  : outcome (nullable (list (nullable Theme))) :=
  match paging_of state siteId with
  | None => Returns ONull
  | Some themes =>
      match getItemsIgnoringPage themes query with
      | OObj themesForQueryIgnoringPage =>
          if negb (truthy_field (search query) || truthy_field (filter query) ||
                   truthy_field (tier query))
          then
            let recommendedThemes :=
              recommended (recommendedThemes (themes_more state)) in
            let themeIds := recommended_ids recommendedThemes in
            match filter_out_ids themeIds themesForQueryIgnoringPage with
            | Returns filtered => Returns (OObj (uniq filtered))
            | TypeError => TypeError
            end
          else Returns (OObj (uniq themesForQueryIgnoringPage))
      | _ => Returns ONull
      end
  end.

(** [omit( query, 'page' )]; of [undefined] it is [{}]. *)
Definition omit_page (query : option Query) : Query :=
  match query with
  | Some q => {| search := search q; filter := filter q; tier := tier q;
                 page := None |}
  | None => empty_query
  end.

(** An optional argument given as [null], as [undefined] or as a value, for
    where the code tells [null] from [undefined]; [optional] forgets which of
    the two it was. *)
Definition optional {A : Type} (argument : nullable A) : option A :=
  match argument with
  | OObj a => Some a
  | _ => None
  end.

(** [queryDetails.siteId === siteId]: the site id read from a key is a site
    id or [undefined], so it never equals [null]. *)
Definition same_site (read : option site_id) (siteId : nullable site_id)
  : bool :=
  match siteId, read with
  | OObj site, Some readSite => bool_decide (readSite = site)
  | OUndefined, None => true
  | _, _ => false
  end.

(** lodash [some] over the entries of [state.themes.queryRequests]: the
    function given to [createSelector]; the selector as exported, with its
    cache, is [isRequestingThemesForQueryIgnoringPage_cached] below. *)
Definition isRequestingThemesForQueryIgnoringPage `{ThemesEnvironment}
    (state : State) (siteId : nullable site_id) (query : Query) : bool :=
  let normalizedQueryWithoutPage :=
    omit_page (Some (getNormalizedThemesQuery query)) in
  existsb
    (λ '(serializedQuery, isRequesting),
       if negb isRequesting then false
       else
         let queryDetails := getDeserializedThemesQueryDetails serializedQuery in
         if negb (same_site (details_siteId queryDetails) siteId) then false
         else bool_decide (normalizedQueryWithoutPage =
                           omit_page (details_query queryDetails)))
    (map_to_list (queryRequests (themes_more state))).

Definition isThemeAvailableOnJetpackSite `{Environment} (state : State)
    (themeId : jsval) (siteId : option site_id) : bool :=
  truthy_obj (getTheme state siteId themeId) ||
  (isWpcomTheme state themeId &&
   hasJetpackSiteJetpackThemesExtendedFeatures state siteId).

Definition shouldFilterWpcomThemes `{ThemesEnvironment} (state : State)
    (siteId : option site_id) : bool :=
  isJetpackSite state siteId &&
  hasJetpackSiteJetpackThemesExtendedFeatures state siteId &&
  negb (isJetpackSiteMultiSite state siteId).

Definition getJetpackUpgradeUrlIfPremiumTheme `{Environment} (state : State)
    (themeId : jsval) (siteId : option site_id) : jsval :=
  if isJetpackSite state siteId &&
     isThemePremium state themeId &&
     negb (hasFeature state siteId FEATURE_UNLIMITED_PREMIUM_THEMES)
  then JStr ("/checkout/" +:+ to_string (getSiteSlug state siteId) +:+
             "/professional")
  else JNull.

(** lodash [intersection( array, other )]: the values of [array], each once,
    that [other] holds too. *)
Definition intersection (array other : list string) : list string :=
  fold_left
    (λ result value,
       if bool_decide (value ∈ result) || negb (bool_decide (value ∈ other))
       then result
       else result ++ [value])
    array [].

Definition isThemeGutenbergFirst `{ThemesEnvironment} (state : State)
    (themeId : jsval) : bool :=
  let theme := getTheme state (Some Wpcom) themeId in
  let themeFeatures := getThemeTaxonomySlugs theme "theme_feature" in
  let neededFeatures := ["global-styles"; "auto-loading-homepage"] in
  negb (length (intersection themeFeatures neededFeatures) =? 0).

Definition themeHasAutoLoadingHomepage `{ThemesEnvironment} (state : State)
    (themeId : jsval) : bool :=
  bool_decide
    ("auto-loading-homepage" ∈
       getThemeTaxonomySlugs (getTheme state (Some Wpcom) themeId) "theme_feature").

Definition getRecommendedThemes `{ThemesEnvironment} (state : State)
  : list Theme :=
  match recommended (recommendedThemes (themes_more state)) with
  | OObj themes => themes
  | _ => []
  end.

(** ** The remaining selectors and the selector cache *)

(** An error of a theme request, as the API reports it. *)
Record ThemeRequestError : Type := {
  error : jsval;
  message : jsval;
}.

(** The slices of [state.themes] not read so far. *)
Record ThemesStateRest : Type := {
  themeRequestErrors : gmap site_id (gmap string ThemeRequestError);
  lastQuery : gmap site_id Query;
  themeRequests : gmap site_id (gmap string bool);
  activeThemeRequests : gmap site_id bool;
  activationRequests : gmap site_id bool;
  completedActivationRequests : gmap site_id bool;
  themePreviewOptions : option (gmap string jsval);
  previewVisibility : option string;
}.

(** The environment of the remaining selectors.  [template] and [download]
    are two further properties of a theme object, [JUndefined] when missing.
    [queries_identity] and [queryRequests_identity] are the identities of
    the objects [state.themes.queries] and [state.themes.queryRequests],
    what the selector cache compares with [===].
    [getSerializedThemesQueryWithoutPage] is imported from the utilities. *)
Class ThemesEnvironmentRest : Type := {
  rest_environment :: ThemesEnvironment;
  themes_rest : State → ThemesStateRest;
  template : Theme → jsval;
  download : Theme → jsval;
  queries_identity : State → N;
  queryRequests_identity : State → N;
  getSerializedThemesQueryWithoutPage : Query → option site_id → string;
}.













Definition areRecommendedThemesLoading `{ThemesEnvironment} (state : State)
  : bool :=
  isLoading (recommendedThemes (themes_more state)).

(** Modelled from the spec: the cache [createSelector] puts around a
    selector (the library is not part of the sources).  "Memoized using a
    cache key", "invalidated whenever the underlying per-site collection ...
    changes": the cache remembers the dependant of the last call and the
    results by key; a call with another dependant clears the results, then a
    result found under the key is returned and any other is computed and
    remembered.  A selector that throws leaves nothing under its key. *)
Record SelectorCache (R : Type) : Type := {
  lastDependant : option N;
  results : gmap string R;
}.

Arguments lastDependant {R} _.
Arguments results {R} _.

(** The results still valid for a call with the given dependant. *)
Definition valid_results {R : Type} (dependant : N) (cache : SelectorCache R)
  : gmap string R :=
  match lastDependant cache with
  | Some last => if (dependant =? last)%N then results cache else ∅
  | None => results cache
  end.

Definition createSelector {R : Type} (selector : outcome R) (dependant : N)
    (cacheKey : string) (cache : SelectorCache R)
  : outcome R * SelectorCache R :=
  let valid := valid_results dependant cache in
  match valid !! cacheKey with
  | Some result =>
      (Returns result, {| lastDependant := Some dependant; results := valid |})
  | None =>
      match selector with
      | Returns result =>
          (Returns result,
           {| lastDependant := Some dependant;
              results := <[cacheKey := result]> valid |})
      | TypeError =>
          (TypeError, {| lastDependant := Some dependant; results := valid |})
      end
  end.

(** The selector as it is exported: [getThemesForQueryIgnoringPage] above is
    the function given to [createSelector], with [state.themes.queries] as
    its only dependant and the serialized query without page as its key. *)
Definition getThemesForQueryIgnoringPage_cached `{ThemesEnvironmentRest}
    (state : State) (siteId : option site_id) (query : Query)
    (cache : SelectorCache (nullable (list (nullable Theme))))
  : outcome (nullable (list (nullable Theme))) *
    SelectorCache (nullable (list (nullable Theme))) :=
  createSelector (getThemesForQueryIgnoringPage state siteId query)
                 (queries_identity state)
                 (getSerializedThemesQueryWithoutPage query siteId)
                 cache.

(** [isRequestingThemesForQueryIgnoringPage] as it is exported, with
    [state.themes.queryRequests] as its only dependant and the serialized
    query as its key.  The key is made from the site id after [null] and
    [undefined] have become the same absent value. *)
Definition isRequestingThemesForQueryIgnoringPage_cached
    `{ThemesEnvironmentRest} (state : State) (siteId : nullable site_id)
    (query : Query) (cache : SelectorCache bool)
  : outcome bool * SelectorCache bool :=
  createSelector
    (Returns (isRequestingThemesForQueryIgnoringPage state siteId query))
    (queryRequests_identity state)
    (getSerializedThemesQuery query (optional siteId))
    cache.

(** ** The checkout demo page: currency formatting *)

Module CheckoutDemo.

(** The outcome of a call: a returned value or a thrown [Error] with its
    message. *)
Inductive completion (A : Type) : Type :=
| Normal (value : A)
| Throw (message : string).

Arguments Normal {A} value.
Arguments Throw {A} message.

Definition bind {A B : Type} (c : completion A) (k : A → completion B)
  : completion B :=
  match c with
  | Normal a => k a
  | Throw message => Throw message
  end.

(** [value] is a JavaScript number, an IEEE 754 double, and [value / 100] is
    the double division.  [Number.prototype.toString] (the shortest decimal
    rendering that reads back as the same double) is a built-in of the
    language and is taken as the argument [toString]. *)
Definition formatValueForCurrency (toString : float → string)
    (currency : string) (value : float) : completion string :=
  if negb (String.eqb currency "USD")
  then Throw ("Unsupported currency " +:+ currency +:+ "'")
  else
    let floatValue := (value / 100)%float in
    Normal ("$" +:+ toString floatValue).

Record Amount : Type := {
  currency : string;
  value : float;
  displayValue : string;
}.

Record LineItem : Type := {
  label : string;
  amount : Amount;
}.

Definition getTotal (toString : float → string) (items : list LineItem)
  : completion LineItem :=
  let lineItemTotal :=
    fold_left (λ sum item, (sum + value (amount item))%float) items 0%float in
  let currency :=
    fold_left (λ lastCurrency item, currency (amount item)) items "USD" in
  bind (formatValueForCurrency toString currency lineItemTotal)
    (λ display,
       Normal {| label := "Total";
                 amount := {| currency := currency;
                              value := lineItemTotal;
                              displayValue := display |} |}).



(** The [demo] store: its state is an object, its actions carry a type and a
    payload. *)
Record Action : Type := {
  action_type : string;
  payload : jsval;
}.

Definition setCountry (payload : jsval) : Action :=
  {| action_type := "set_country"; payload := payload |}.

Definition getCountry (state : gmap string jsval) : jsval :=
  default JUndefined (state !! "country").

(** [reducer( state = {}, action )]; an omitted state is [None]. *)
Definition reducer (state : option (gmap string jsval)) (action : Action)
  : gmap string jsval :=
  let state := default ∅ state in
  if String.eqb (action_type action) "set_country"
  then <["country" := payload action]> state
  else state.

End CheckoutDemo.

(** ** Concrete states *)

Module Demo.

(** A free theme of the WordPress.com directory, a premium one, and the
    record WordPress.org holds for the free one. *)
Definition twentysixteen : Theme :=
  {| addr := 1; id := "twentysixteen"; stylesheet := JStr "pub/twentysixteen";
     price := JUndefined; demo_uri := JStr "https://twentysixteendemo.wordpress.com/" |}.

Definition mood : Theme :=
  {| addr := 2; id := "mood"; stylesheet := JStr "premium/mood";
     price := JStr "$20"; demo_uri := JStr "https://mooddemo.wordpress.com/" |}.

Definition twentysixteen_org : Theme :=
  {| addr := 3; id := "twentysixteen"; stylesheet := JUndefined;
     price := JUndefined; demo_uri := JStr "https://wp-themes.com/twentysixteen" |}.

Definition default_query : Query :=
  {| search := None; filter := None; tier := None; page := Some 1%Z |}.

Definition second_page : Query :=
  {| search := None; filter := None; tier := None; page := Some 2%Z |}.

(** The WordPress.com collection: the first page is received (with a
    duplicate, as the endpoint sometimes sends), the second is known to exist
    but only partly received. *)
Definition wpcom_manager : ThemeQueryManager :=
  {| getItem := λ themeId,
       if strict_eq themeId (JStr "twentysixteen") then OObj twentysixteen
       else if strict_eq themeId (JStr "mood") then OObj mood
       else OUndefined;
     getItems := λ query,
       match page query with
       | Some 1%Z => OObj [OObj twentysixteen; OObj mood; OObj twentysixteen]
       | Some 2%Z => OObj [OObj mood; OUndefined]
       | _ => ONull
       end |}.

Definition wporg_manager : ThemeQueryManager :=
  {| getItem := λ themeId,
       if strict_eq themeId (JStr "twentysixteen") then OObj twentysixteen_org
       else OUndefined;
     getItems := λ _, ONull |}.

Definition site5 : option site_id := Some (SiteNum 5).

Definition themes_state : ThemesState :=
  {| queries := <[Wpcom := wpcom_manager]> (<[Wporg := wporg_manager]> ∅);
     activeThemes := <[SiteNum 5 := "twentysixteen-wpcom"]> ∅;
     themeHasAutoLoadingHomepageWarning :=
       Some {| hw_themeId := "mood"; hw_show := true; hw_accepted := false |} |}.

(** A site whose stored active theme id holds [-wpcom] before its suffix. *)
Definition themes_state_inner : ThemesState :=
  {| queries := ∅;
     activeThemes := <[SiteNum 5 := "acme-wpcom-pro-wpcom"]> ∅;
     themeHasAutoLoadingHomepageWarning := None |}.

(** A WordPress.com (not Jetpack) site 5 with one premium theme purchase and
    no plan feature. *)
Definition env : Environment :=
  {| State := ThemesState;
     themes := λ state, state;
     getCustomizerUrl := λ _ _, JStr "/customize/example.wordpress.com";
     getSiteSlug := λ _ _, JStr "example.wordpress.com";
     getSiteOption := λ _ _ _, JNull;
     isJetpackSite := λ _ _, false;
     canJetpackSiteManage := λ _ _, false;
     hasJetpackSiteJetpackThemesExtendedFeatures := λ _ _, false;
     getSitePurchases := λ _ siteId,
       if bool_decide (siteId = site5)
       then [ {| productSlug := "premium_theme"; meta := JStr "mood" |} ]
       else [];
     hasFeature := λ _ _ _, false;
     isPremium := λ theme,
       match theme with
       | OObj t => match stylesheet t with
                   | JStr s => String.prefix "premium/" s
                   | _ => false
                   end
       | _ => false
       end;
     oldShowcaseUrl := "//wordpress.com/themes/";
     FEATURE_UNLIMITED_PREMIUM_THEMES := "premium-themes";
     config_isEnabled := λ _, true;
     translate := λ text, text |}.

(** Site 7 is a Jetpack site; a request for the first page of the
    WordPress.com directory is in flight, and the install of [mood] on site 7
    is tracked under its suffixed id. *)
Definition site7 : option site_id := Some (SiteNum 7).

Definition jetpack_env : Environment :=
  {| State := ThemesState;
     themes := λ state, state;
     getCustomizerUrl := λ _ _, JStr "https://example.org/wp-admin/customize.php?return=%2F";
     getSiteSlug := λ _ _, JStr "example.org";
     getSiteOption := λ _ _ _, JStr "https://example.org/wp-admin/";
     isJetpackSite := λ _ siteId, bool_decide (siteId = site7);
     canJetpackSiteManage := λ _ _, true;
     hasJetpackSiteJetpackThemesExtendedFeatures := λ _ _, true;
     getSitePurchases := λ _ _, [];
     hasFeature := λ _ _ _, false;
     isPremium := isPremium (Environment := env);
     oldShowcaseUrl := "//wordpress.com/themes/";
     FEATURE_UNLIMITED_PREMIUM_THEMES := "premium-themes";
     config_isEnabled := λ _, true;
     translate := λ text, text |}.

Definition wpcom_paging : ThemeQueryManagerPaging :=
  {| getFound := λ _, Some 45%Z;
     getNumberOfPages := λ _, Some 3%Z;
     getItemsIgnoringPage := λ _,
       OObj [OObj twentysixteen; OObj mood; OObj twentysixteen] |}.

Definition site7_paging : ThemeQueryManagerPaging :=
  {| getFound := λ _, Some 0%Z;
     getNumberOfPages := λ _, Some 0%Z;
     getItemsIgnoringPage := λ _, OObj [] |}.

(** A collection whose array for a query still holds an entry that has not
    been received. *)
Definition wporg_paging : ThemeQueryManagerPaging :=
  {| getFound := λ _, Some 2%Z;
     getNumberOfPages := λ _, Some 1%Z;
     getItemsIgnoringPage := λ _, OObj [OObj twentysixteen_org; OUndefined] |}.

Definition search_query : Query :=
  {| search := Some "blog"; filter := None; tier := None; page := None |}.

Definition themes_more_state : ThemesStateMore :=
  {| paging := <[Wpcom := wpcom_paging]>
                 (<[Wporg := wporg_paging]> (<[SiteNum 7 := site7_paging]> ∅));
     queryRequests := <["wpcom:{}" := true]> ∅;
     themeInstalls := <[SiteNum 7 := <["mood-wpcom" := true]> ∅]> ∅;
     recommendedThemes :=
       {| isLoading := false; recommended := OObj [mood] |} |}.

Definition themes_env : ThemesEnvironment :=
  {| themes_environment := jetpack_env;
     themes_more := λ _, themes_more_state;
     isJetpackSiteMultiSite := λ _ _, false;
     getNormalizedThemesQuery := λ query,
       {| search := search query; filter := filter query; tier := tier query;
          page := match page query with Some 1%Z => None | p => p end |};
     getSerializedThemesQuery := λ query siteId,
       match siteId, page query with
       | Some Wpcom, (None | Some 1%Z) => "wpcom:{}"
       | Some Wpcom, Some _ => "wpcom:{page}"
       | _, _ => "{}"
       end;
     getDeserializedThemesQueryDetails := λ serializedQuery,
       if String.eqb serializedQuery "wpcom:{}"
       then {| details_siteId := Some Wpcom; details_query := Some empty_query |}
       else {| details_siteId := None; details_query := None |};
     getThemeTaxonomySlugs := λ theme _,
       match theme with
       | OObj t => if String.eqb (id t) "mood"
                   then ["auto-loading-homepage"; "blog"] else ["blog"]
       | _ => []
       end;
     DEFAULT_THEME_QUERY_page := 1 |}.

(** The collection of site 7 holds one theme; the site stores an active
    theme id with the suffix. *)
Definition site7_manager : ThemeQueryManager :=
  {| getItem := λ themeId,
       if strict_eq themeId (JStr "twentysixteen") then OObj twentysixteen_org
       else OUndefined;
     getItems := λ _, OObj [OObj twentysixteen_org] |}.

Definition themes_state_jetpack : ThemesState :=
  {| queries := <[Wpcom := wpcom_manager]> (<[SiteNum 7 := site7_manager]> ∅);
     activeThemes := <[SiteNum 7 := "mood-wpcom"]> ∅;
     themeHasAutoLoadingHomepageWarning := None |}.

(** Site 7 as a Jetpack site whose themes cannot be managed from here: the
    details of a theme are shown by the admin pages of the site. *)
Definition jetpack_unmanaged_env : Environment :=
  {| State := ThemesState;
     themes := λ state, state;
     getCustomizerUrl := λ _ _, JStr "https://example.org/wp-admin/customize.php?return=%2F";
     getSiteSlug := λ _ _, JStr "example.org";
     getSiteOption := λ _ _ _, JStr "https://example.org/wp-admin/";
     isJetpackSite := λ _ siteId, bool_decide (siteId = site7);
     canJetpackSiteManage := λ _ _, false;
     hasJetpackSiteJetpackThemesExtendedFeatures := λ _ _, false;
     getSitePurchases := λ _ _, [];
     hasFeature := λ _ _ _, false;
     isPremium := isPremium (Environment := env);
     oldShowcaseUrl := "//wordpress.com/themes/";
     FEATURE_UNLIMITED_PREMIUM_THEMES := "premium-themes";
     config_isEnabled := λ _, true;
     translate := λ text, text |}.

(** The WordPress.com site 5 with the old showcase: no feature is enabled. *)
Definition old_showcase_env : Environment :=
  {| State := ThemesState;
     themes := λ state, state;
     getCustomizerUrl := λ _ _, JStr "/customize/example.wordpress.com";
     getSiteSlug := λ _ _, JStr "example.wordpress.com";
     getSiteOption := λ _ _ _, JNull;
     isJetpackSite := λ _ _, false;
     canJetpackSiteManage := λ _ _, false;
     hasJetpackSiteJetpackThemesExtendedFeatures := λ _ _, false;
     getSitePurchases := λ _ _, [];
     hasFeature := λ _ _ _, false;
     isPremium := isPremium (Environment := env);
     oldShowcaseUrl := "//wordpress.com/themes/";
     FEATURE_UNLIMITED_PREMIUM_THEMES := "premium-themes";
     config_isEnabled := λ _, false;
     translate := λ text, text |}.

(** A state that is only the list of recommended themes: the collections
    stay the same object while the recommendations change. *)
Definition recommending_env : Environment :=
  {| State := nullable (list Theme);
     themes := λ _, themes_state_jetpack;
     getCustomizerUrl := λ _ _, JNull;
     getSiteSlug := λ _ _, JNull;
     getSiteOption := λ _ _ _, JNull;
     isJetpackSite := λ _ _, false;
     canJetpackSiteManage := λ _ _, false;
     hasJetpackSiteJetpackThemesExtendedFeatures := λ _ _, false;
     getSitePurchases := λ _ _, [];
     hasFeature := λ _ _ _, false;
     isPremium := isPremium (Environment := env);
     oldShowcaseUrl := "//wordpress.com/themes/";
     FEATURE_UNLIMITED_PREMIUM_THEMES := "premium-themes";
     config_isEnabled := λ _, true;
     translate := λ text, text |}.

Definition recommending_themes_env : ThemesEnvironment :=
  {| themes_environment := recommending_env;
     themes_more := λ recommendedNow,
       {| paging := paging themes_more_state;
          queryRequests := ∅;
          themeInstalls := ∅;
          recommendedThemes :=
            {| isLoading := false; recommended := recommendedNow |} |};
     isJetpackSiteMultiSite := λ _ _, false;
     getNormalizedThemesQuery := λ query, query;
     getSerializedThemesQuery := λ _ _, "wpcom:{}";
     getDeserializedThemesQueryDetails := λ _,
       {| details_siteId := None; details_query := None |};
     getThemeTaxonomySlugs := λ _ _, [];
     DEFAULT_THEME_QUERY_page := 1 |}.

Definition rest_state : ThemesStateRest :=
  {| themeRequestErrors := ∅;
     lastQuery := ∅;
     themeRequests := ∅;
     activeThemeRequests := ∅;
     activationRequests := ∅;
     completedActivationRequests := ∅;
     themePreviewOptions := None;
     previewVisibility := None |}.

Definition recommending_rest_env : ThemesEnvironmentRest :=
  {| rest_environment := recommending_themes_env;
     themes_rest := λ _, rest_state;
     template := λ _, JUndefined;
     download := λ _, JUndefined;
     queries_identity := λ _, 1%N;
     queryRequests_identity := λ _, 2%N;
     getSerializedThemesQueryWithoutPage := λ _ _, "wpcom:{}" |}.

Definition empty_cache {R : Type} : SelectorCache R :=
  {| lastDependant := None; results := ∅ |}.

(** The Jetpack demo environment with the remaining slices, all empty. *)
Definition rest_env : ThemesEnvironmentRest :=
  {| rest_environment := themes_env;
     themes_rest := λ _, rest_state;
     template := λ _, JUndefined;
     download := λ theme,
       if String.eqb (id theme) "twentysixteen"
       then JStr "https://public-api.wordpress.com/rest/v1/themes/download/twentysixteen.zip"
       else JUndefined;
     queries_identity := λ _, 1%N;
     queryRequests_identity := λ _, 2%N;
     getSerializedThemesQueryWithoutPage := λ query siteId,
       getSerializedThemesQuery (ThemesEnvironment := themes_env) query siteId |}.

End Demo.

(** ** Vocabulary of the properties *)

(** A source holds a record for a theme id when it has a collection and the
    collection returns an object for the id. *)
Definition source_has `{Environment} (state : State) (source : option site_id)
    (themeId : jsval) (theme : Theme) : Prop :=
  ∃ manager, manager_of state source = Some manager ∧
             getItem manager themeId = OObj theme.

Definition source_lacks `{Environment} (state : State) (source : option site_id)
    (themeId : jsval) : Prop :=
  ∀ theme, ¬ source_has state source themeId theme.

(** What SameValueZero compares of an array entry: which absent value it
    is, or the identity of the object. *)
Definition identity (entry : nullable Theme) : bool + N :=
  match entry with
  | ONull => inl true
  | OUndefined => inl false
  | OObj theme => inr (addr theme)
  end.

(** No two positions of the array hold the same value. *)
Definition duplicate_free (array : list (nullable Theme)) : Prop :=
  ∀ i j x y, array !! i = Some x → array !! j = Some y →
             same_value_zero x y = true → i = j.

(** The theme has been purchased for the site: a site purchase with product
    slug [premium_theme] and the theme id as its [meta] exists. *)
Definition purchased_for_site `{Environment} (state : State) (themeId : jsval)
    (siteId : option site_id) : Prop :=
  ∃ purchase, purchase ∈ getSitePurchases state siteId ∧
              productSlug purchase = "premium_theme" ∧
              meta purchase = themeId.

(** [pat] occurs in [s]. *)
Definition contains_str (pat s : string) : Prop :=
  ∃ before after, s = before +:+ pat +:+ after.

(** The array entry is an object. *)
Definition is_object (entry : nullable Theme) : Prop :=
  ∃ theme, entry = OObj theme.

(** The query has a search text, a filter or a tier. *)
Definition is_filtered (query : Query) : bool :=
  truthy_field (search query) || truthy_field (filter query) ||
  truthy_field (tier query).

(** The URL is a path relative to the host of the application: it starts
    with one [/], not with the [//] that names another host. *)
Definition relative_path (url : string) : bool :=
  String.prefix "/" url && negb (String.prefix "//" url).

(** The site is a Jetpack site whose theme details are not managed here:
    the condition under which [getThemeDetailsUrl] points to the admin pages
    of the site. *)
Definition jetpack_without_management `{Environment} (state : State)
    (siteId : option site_id) : bool :=
  isJetpackSite state siteId &&
  negb (config_isEnabled "manage/themes/details/jetpack" &&
        canJetpackSiteManage state siteId &&
        hasJetpackSiteJetpackThemesExtendedFeatures state siteId).

(** * Properties *)

(** ** Canonical theme resolution *)

Lemma getTheme_has `{Environment} state source themeId theme :
  source_has state source themeId theme ↔
  getTheme state source themeId = OObj theme.
Proof.
  unfold source_has, getTheme. split.
  - intros (manager & -> & Hitem). exact Hitem.
  - destruct (manager_of state source) as [manager|]; [eauto | discriminate].
Qed.

Lemma getTheme_lacks `{Environment} state source themeId :
  source_lacks state source themeId ↔
  truthy_obj (getTheme state source themeId) = false.
Proof.
  unfold source_lacks. split.
  - intros Hlacks. destruct (getTheme state source themeId) as [| |theme] eqn:E;
      try reflexivity.
    exfalso. apply (Hlacks theme). by apply getTheme_has.
  - intros Hfalsy theme Hhas. apply getTheme_has in Hhas.
    rewrite Hhas in Hfalsy. discriminate.
Qed.

Lemma getTheme_undefined_site `{Environment} state themeId :
  getTheme state None themeId = ONull.
Proof. reflexivity. Qed.

Lemma getCanonicalTheme_chain `{Environment} state siteId themeId :
  getCanonicalTheme state siteId themeId =
    if truthy_obj (getTheme state (Some Wpcom) themeId)
    then getTheme state (Some Wpcom) themeId
    else if truthy_obj (getTheme state (Some Wporg) themeId)
    then getTheme state (Some Wporg) themeId
    else if truthy_obj (getTheme state siteId themeId)
    then getTheme state siteId themeId
    else ONull.
Proof.
  unfold getCanonicalTheme, lodash_find. cbn [List.find].
  destruct (truthy_obj (getTheme state (Some Wpcom) themeId)); [reflexivity|].
  destruct (truthy_obj (getTheme state (Some Wporg) themeId)); [reflexivity|].
  destruct (truthy_obj (getTheme state siteId themeId)); reflexivity.
Qed.

(** C1. [getCanonicalTheme] returns the record of the first of the sources
    wpcom, wporg and the fallback site that holds the theme id: the wpcom
    record whenever wpcom holds one (in particular when wporg holds one as
    well), else the wporg record, else the record of the fallback site, and
    [null] when none of the three holds the id. *)
Theorem getCanonicalTheme_priority `{Environment} (state : State)
    (siteId : option site_id) (themeId : jsval) :
  (∀ theme, source_has state (Some Wpcom) themeId theme →
            getCanonicalTheme state siteId themeId = OObj theme) ∧
  (∀ theme, source_lacks state (Some Wpcom) themeId →
            source_has state (Some Wporg) themeId theme →
            getCanonicalTheme state siteId themeId = OObj theme) ∧
  (∀ theme, source_lacks state (Some Wpcom) themeId →
            source_lacks state (Some Wporg) themeId →
            source_has state siteId themeId theme →
            getCanonicalTheme state siteId themeId = OObj theme) ∧
  (source_lacks state (Some Wpcom) themeId →
   source_lacks state (Some Wporg) themeId →
   source_lacks state siteId themeId →
   getCanonicalTheme state siteId themeId = ONull) ∧
  (∀ com org, source_has state (Some Wpcom) themeId com →
              source_has state (Some Wporg) themeId org →
              getCanonicalTheme state siteId themeId = OObj com).
Proof.
  rewrite getCanonicalTheme_chain.
  repeat split.
  - intros theme Hcom%getTheme_has. by rewrite Hcom.
  - intros theme Hcom%getTheme_lacks Horg%getTheme_has.
    rewrite Hcom. by rewrite Horg.
  - intros theme Hcom%getTheme_lacks Horg%getTheme_lacks Hsite%getTheme_has.
    rewrite Hcom, Horg. by rewrite Hsite.
  - intros Hcom%getTheme_lacks Horg%getTheme_lacks Hsite%getTheme_lacks.
    by rewrite Hcom, Horg, Hsite.
  - intros com org Hcom%getTheme_has _. by rewrite Hcom.
Qed.

(** The resolution at a concrete state: the id held by both directories
    resolves to the wpcom record, an unknown id to [null]. *)
Lemma getCanonicalTheme_priority_witness :
  getCanonicalTheme (H := Demo.env) Demo.themes_state Demo.site5
    (JStr "twentysixteen") = OObj Demo.twentysixteen ∧
  getCanonicalTheme (H := Demo.env) Demo.themes_state Demo.site5
    (JStr "unknown") = ONull.
Proof.
  pose proof (getCanonicalTheme_priority (H := Demo.env) Demo.themes_state
                Demo.site5 (JStr "twentysixteen")) as (_ & _ & _ & _ & Hboth).
  pose proof (getCanonicalTheme_priority (H := Demo.env) Demo.themes_state
                Demo.site5 (JStr "unknown")) as (_ & _ & _ & Hnone & _).
  split.
  - apply (Hboth Demo.twentysixteen Demo.twentysixteen_org).
    + exists Demo.wpcom_manager. split; reflexivity.
    + exists Demo.wporg_manager. split; reflexivity.
  - apply Hnone; apply getTheme_lacks; reflexivity.
Defined.

(** ** Themes for a query *)

Lemma same_value_zero_identity a b :
  same_value_zero a b = true ↔ identity a = identity b.
Proof.
  destruct a, b; simpl; try (split; (discriminate || reflexivity)).
  rewrite N.eqb_eq. split; [congruence | by intros [=]].
Qed.

Lemma existsb_same_value_zero value result :
  existsb (same_value_zero value) result = true ↔
  identity value ∈ identity <$> result.
Proof.
  rewrite existsb_exists, list_elem_of_fmap. split.
  - intros (y & Hin%list_elem_of_In & Hsame%same_value_zero_identity). eauto.
  - intros (y & Heq & Hin%list_elem_of_In).
    exists y. by rewrite same_value_zero_identity.
Qed.

Lemma lodash_includes_undefined array :
  lodash_includes array OUndefined = true ↔ OUndefined ∈ array.
Proof.
  unfold lodash_includes. rewrite existsb_exists. split.
  - intros (entry & Hin%list_elem_of_In & Hsame).
    by destruct entry.
  - intros Hin%list_elem_of_In. by exists OUndefined.
Qed.

(** The loop of [uniq]: the result grows at its end by a subsequence of the
    array, stays free of duplicates and covers every value of the array. *)
Lemma fold_uniq_push array : ∀ result,
  NoDup (identity <$> result) →
  ∃ pushed,
    fold_left uniq_push array result = result ++ pushed ∧
    sublist pushed array ∧
    NoDup (identity <$> (result ++ pushed)) ∧
    ∀ x, x ∈ array → identity x ∈ identity <$> (result ++ pushed).
Proof.
  induction array as [|value array IH]; intros result Hnodup.
  - exists []. rewrite app_nil_r. repeat split; try done.
    intros x Hx. by apply not_elem_of_nil in Hx.
  - cbn [fold_left]. unfold uniq_push at 2.
    destruct (existsb (same_value_zero value) result) eqn:Eseen.
    + apply existsb_same_value_zero in Eseen.
      destruct (IH result Hnodup) as (pushed & Hfold & Hsub & Hnd & Hcover).
      exists pushed. repeat split; try done.
      * by apply sublist_cons.
      * intros x [->|Hx]%elem_of_cons; [|by apply Hcover].
        rewrite fmap_app. apply elem_of_app. by left.
    + assert (identity value ∉ identity <$> result) as Hfresh.
      { intros Hin%existsb_same_value_zero. congruence. }
      assert (NoDup (identity <$> (result ++ [value]))) as Hnodup'.
      { rewrite fmap_app. apply NoDup_app. repeat split; try done.
        - intros k Hk [->|Hnil%not_elem_of_nil]%elem_of_cons; done.
        - apply NoDup_singleton. }
      destruct (IH _ Hnodup') as (pushed & Hfold & Hsub & Hnd & Hcover).
      exists (value :: pushed). rewrite Hfold, <- app_assoc. cbn [app].
      rewrite <- app_assoc in Hnd, Hcover. cbn [app] in Hnd, Hcover.
      repeat split; try done.
      * by apply sublist_skip.
      * intros x [->|Hx]%elem_of_cons; [|by apply Hcover].
        rewrite fmap_app. apply elem_of_app. right. cbn. apply elem_of_cons. by left.
Qed.

Lemma uniq_spec array :
  duplicate_free (uniq array) ∧
  sublist (uniq array) array ∧
  ∀ x, x ∈ array → ∃ y, y ∈ uniq array ∧ same_value_zero x y = true.
Proof.
  destruct (fold_uniq_push array []) as (pushed & Hfold & Hsub & Hnd & Hcover).
  { apply NoDup_nil_2. }
  unfold uniq. rewrite Hfold. cbn [app] in *. repeat split; try done.
  - intros i j x y Hi Hj Hsame%same_value_zero_identity.
    apply (NoDup_lookup _ i j (identity x) Hnd); rewrite list_lookup_fmap.
    + by rewrite Hi.
    + rewrite Hj. cbn. by rewrite Hsame.
  - intros x Hx. apply Hcover, list_elem_of_fmap in Hx as (y & Heq & Hy).
    exists y. by rewrite same_value_zero_identity.
Qed.

(** C2. [getThemesForQuery] returns [null] when the site has no query
    manager, when the manager yields no items for the query ([null] or
    [undefined] instead of an array), and whenever the array it yields holds
    an [undefined] entry; otherwise it returns the yielded themes without
    duplicates: no two entries of the result are the same value, the result
    is a subsequence of the yielded array, and every yielded theme is in it. *)
Theorem getThemesForQuery_spec `{Environment} (state : State)
    (siteId : option site_id) (query : Query) :
  (manager_of state siteId = None →
   getThemesForQuery state siteId query = ONull) ∧
  (∀ manager, manager_of state siteId = Some manager →
     (getItems manager query = ONull ∨ getItems manager query = OUndefined →
      getThemesForQuery state siteId query = ONull) ∧
     (∀ themes, getItems manager query = OObj themes →
        (OUndefined ∈ themes →
         getThemesForQuery state siteId query = ONull) ∧
        (OUndefined ∉ themes →
         ∃ result,
           getThemesForQuery state siteId query = OObj result ∧
           duplicate_free result ∧
           sublist result themes ∧
           ∀ x, x ∈ themes → ∃ y, y ∈ result ∧ same_value_zero x y = true))).
Proof.
  unfold getThemesForQuery. split.
  - by intros ->.
  - intros manager ->. split.
    + by intros [-> | ->].
    + intros themes ->. split.
      * intros Hin%lodash_includes_undefined. by rewrite Hin.
      * intros Hnot.
        destruct (lodash_includes themes OUndefined) eqn:Einc.
        { by apply lodash_includes_undefined in Einc. }
        exists (uniq themes). split; [done|]. apply uniq_spec.
Qed.

(** The first page of the WordPress.com collection, received with a
    duplicate, comes back with each theme once. *)
Lemma getThemesForQuery_spec_witness :
  ∃ result,
    getThemesForQuery (H := Demo.env) Demo.themes_state (Some Wpcom)
      Demo.default_query = OObj result ∧
    duplicate_free result ∧
    sublist result [OObj Demo.twentysixteen; OObj Demo.mood; OObj Demo.twentysixteen] ∧
    ∀ x, x ∈ [OObj Demo.twentysixteen; OObj Demo.mood; OObj Demo.twentysixteen] →
         ∃ y, y ∈ result ∧ same_value_zero x y = true.
Proof.
  pose proof (getThemesForQuery_spec (H := Demo.env) Demo.themes_state
                (Some Wpcom) Demo.default_query) as (_ & Hmanager).
  destruct (Hmanager Demo.wpcom_manager eq_refl) as (_ & Harray).
  destruct (Harray [OObj Demo.twentysixteen; OObj Demo.mood; OObj Demo.twentysixteen]
              eq_refl) as (_ & Hclean).
  apply Hclean.
  intros Hin. repeat (apply elem_of_cons in Hin as [Hin|Hin]; [discriminate|]).
  by apply not_elem_of_nil in Hin.
Defined.

(** ** Premium themes: availability and price *)

Lemma strict_eq_true a b : strict_eq a b = true ↔ a = b.
Proof. unfold strict_eq. apply bool_decide_eq_true. Qed.

Lemma strict_eq_false a b : strict_eq a b = false ↔ a ≠ b.
Proof. unfold strict_eq. apply bool_decide_eq_false. Qed.

Lemma isThemePurchased_iff `{Environment} state themeId siteId :
  isThemePurchased state themeId siteId = true ↔
  purchased_for_site state themeId siteId.
Proof.
  unfold isThemePurchased, purchased_for_site. rewrite existsb_exists. split.
  - intros (purchase & Hin%list_elem_of_In & Hmatch).
    apply andb_true_iff in Hmatch as [Hslug%String.eqb_eq Hmeta%strict_eq_true].
    eauto.
  - intros (purchase & Hin%list_elem_of_In & Hslug & Hmeta).
    exists purchase. split; [done|].
    apply andb_true_iff. by rewrite String.eqb_eq, strict_eq_true.
Qed.

(** C3. [isPremiumThemeAvailable] is true exactly when the theme has been
    purchased for the site or the site has the unlimited-premium-themes
    feature, and false in the remaining case; its value follows the
    four-case table of the two conditions. *)
Theorem isPremiumThemeAvailable_iff `{Environment} (state : State)
    (themeId : jsval) (siteId : option site_id) :
  (isPremiumThemeAvailable state themeId siteId = true ↔
     purchased_for_site state themeId siteId ∨
     hasFeature state siteId FEATURE_UNLIMITED_PREMIUM_THEMES = true) ∧
  (isPremiumThemeAvailable state themeId siteId = false ↔
     ¬ purchased_for_site state themeId siteId ∧
     hasFeature state siteId FEATURE_UNLIMITED_PREMIUM_THEMES = false) ∧
  isPremiumThemeAvailable state themeId siteId =
    match isThemePurchased state themeId siteId,
          hasFeature state siteId FEATURE_UNLIMITED_PREMIUM_THEMES with
    | true, true => true
    | true, false => true
    | false, true => true
    | false, false => false
    end.
Proof.
  unfold isPremiumThemeAvailable.
  rewrite orb_true_iff, orb_false_iff, <- isThemePurchased_iff.
  split; [tauto|]. split.
  - rewrite <- not_true_iff_false. tauto.
  - by destruct (isThemePurchased state themeId siteId),
         (hasFeature state siteId FEATURE_UNLIMITED_PREMIUM_THEMES).
Qed.

(** C5. [getPremiumThemePrice] returns the empty string when the theme is
    not premium, whatever the purchases of the site, and when the theme is
    already available for the site; for a premium theme that is not
    available it returns the translated label "Upgrade" on a Jetpack site
    and otherwise the [price] property of the wpcom theme record. *)
Theorem getPremiumThemePrice_cases `{Environment} (state : State)
    (themeId : jsval) (siteId : option site_id) :
  (isThemePremium state themeId = false →
   getPremiumThemePrice state themeId siteId = JStr "") ∧
  (isPremiumThemeAvailable state themeId siteId = true →
   getPremiumThemePrice state themeId siteId = JStr "") ∧
  (isThemePremium state themeId = true →
   isPremiumThemeAvailable state themeId siteId = false →
   isJetpackSite state siteId = true →
   getPremiumThemePrice state themeId siteId = JStr (translate "Upgrade")) ∧
  (isThemePremium state themeId = true →
   isPremiumThemeAvailable state themeId siteId = false →
   isJetpackSite state siteId = false →
   getPremiumThemePrice state themeId siteId =
     get_prop (getTheme state (Some Wpcom) themeId) price).
Proof.
  unfold getPremiumThemePrice. repeat split.
  - by intros ->.
  - intros ->. by rewrite orb_true_r.
  - by intros -> -> ->.
  - by intros -> -> ->.
Qed.

(** The price of a free theme, of a purchased premium theme and of a premium
    theme on a site that has not bought it. *)
Lemma getPremiumThemePrice_cases_witness :
  getPremiumThemePrice (H := Demo.env) Demo.themes_state (JStr "twentysixteen")
    Demo.site5 = JStr "" ∧
  getPremiumThemePrice (H := Demo.env) Demo.themes_state (JStr "mood")
    Demo.site5 = JStr "" ∧
  getPremiumThemePrice (H := Demo.env) Demo.themes_state (JStr "mood")
    (Some (SiteNum 6)) = JStr "$20".
Proof.
  pose proof (getPremiumThemePrice_cases (H := Demo.env) Demo.themes_state
                (JStr "twentysixteen") Demo.site5) as (Hfree & _).
  pose proof (getPremiumThemePrice_cases (H := Demo.env) Demo.themes_state
                (JStr "mood") Demo.site5) as (_ & Havailable & _).
  pose proof (getPremiumThemePrice_cases (H := Demo.env) Demo.themes_state
                (JStr "mood") (Some (SiteNum 6))) as (_ & _ & _ & Hprice).
  split; [|split].
  - apply Hfree. reflexivity.
  - apply Havailable. reflexivity.
  - apply Hprice; reflexivity.
Defined.

(** ** Setup instructions URL *)

(** C10. [getThemeSupportUrl] returns [null] when the theme id is absent and
    also whenever the theme is not a premium wpcom theme; for a premium theme
    with a theme id it returns the setup path (or, with the old showcase, the
    support path), and it returns a string in no other case. *)
Theorem getThemeSupportUrl_premium_only `{Environment} (state : State)
    (themeId : jsval) (siteId : option site_id) :
  (truthy themeId = false → getThemeSupportUrl state themeId siteId = JNull) ∧
  (isThemePremium state themeId = false →
   getThemeSupportUrl state themeId siteId = JNull) ∧
  (truthy themeId = true → isThemePremium state themeId = true →
   getThemeSupportUrl state themeId siteId =
     JStr (if config_isEnabled "manage/themes/details"
           then "/theme/" +:+ to_string themeId +:+ "/setup" +:+
                site_suffix state siteId
           else oldShowcaseUrl +:+ site_suffix state siteId +:+
                to_string themeId +:+ "/support")) ∧
  (∀ url, getThemeSupportUrl state themeId siteId = JStr url →
          truthy themeId = true ∧ isThemePremium state themeId = true).
Proof.
  unfold getThemeSupportUrl. repeat split.
  - by intros ->.
  - intros ->. by rewrite orb_true_r.
  - intros -> ->. cbn. by destruct (config_isEnabled _).
  - destruct (truthy themeId); [done|]. discriminate.
  - destruct (truthy themeId), (isThemePremium state themeId); done.
Qed.

(** A free theme has no setup URL, a premium one has. *)
Lemma getThemeSupportUrl_premium_only_witness :
  getThemeSupportUrl (H := Demo.env) Demo.themes_state (JStr "twentysixteen")
    Demo.site5 = JNull ∧
  getThemeSupportUrl (H := Demo.env) Demo.themes_state (JStr "mood")
    Demo.site5 = JStr "/theme/mood/setup/example.wordpress.com".
Proof.
  pose proof (getThemeSupportUrl_premium_only (H := Demo.env) Demo.themes_state
                (JStr "twentysixteen") Demo.site5) as (_ & Hfree & _).
  pose proof (getThemeSupportUrl_premium_only (H := Demo.env) Demo.themes_state
                (JStr "mood") Demo.site5) as (_ & _ & Hpremium & _).
  split.
  - apply Hfree. reflexivity.
  - apply Hpremium; reflexivity.
Defined.

(** ** The auto-loading-homepage gate *)

Lemma js_and_bool_true (condition : bool) (value : jsval) :
  js_and (JBool condition) value = JBool true ↔
  condition = true ∧ value = JBool true.
Proof.
  destruct condition; cbn.
  - split; [by intros -> | by intros [_ ->]].
  - split; [discriminate | by intros [[=] _]].
Qed.

(** C7. [shouldShowHomepageWarning] returns [true] only when the stored
    pending theme id equals the given id and the [show] flag is set (and does
    so then); [hasAutoLoadingHomepageModalAccepted] likewise with the
    [accepted] flag; for a theme id that differs from the stored pending id
    both return [false]. *)
Theorem homepage_warning_gate `{Environment} (state : State) (themeId : jsval) :
  (shouldShowHomepageWarning state themeId = JBool true ↔
     ∃ warning,
       themeHasAutoLoadingHomepageWarning (themes state) = Some warning ∧
       themeId = JStr (hw_themeId warning) ∧ hw_show warning = true) ∧
  (hasAutoLoadingHomepageModalAccepted state themeId = JBool true ↔
     ∃ warning,
       themeHasAutoLoadingHomepageWarning (themes state) = Some warning ∧
       themeId = JStr (hw_themeId warning) ∧ hw_accepted warning = true) ∧
  (getPreActivateThemeId state ≠ themeId →
     shouldShowHomepageWarning state themeId = JBool false ∧
     hasAutoLoadingHomepageModalAccepted state themeId = JBool false).
Proof.
  unfold shouldShowHomepageWarning, hasAutoLoadingHomepageModalAccepted,
    getPreActivateThemeId, get_warning.
  rewrite !js_and_bool_true, !strict_eq_true.
  destruct (themeHasAutoLoadingHomepageWarning (themes state)) as [warning|].
  - split; [|split].
    + split.
      * intros [<- [= Hshow]]. by exists warning.
      * intros (w & [= <-] & -> & Hshow). by rewrite Hshow.
    + split.
      * intros [<- [= Haccepted]]. by exists warning.
      * intros (w & [= <-] & -> & Haccepted). by rewrite Haccepted.
    + intros Hne%strict_eq_false. by rewrite Hne.
  - split; [|split].
    + split; [by intros [_ [=]] | by intros (w & [=] & _)].
    + split; [by intros [_ [=]] | by intros (w & [=] & _)].
    + intros Hne%strict_eq_false. by rewrite Hne.
Qed.

(** The gate of the demo state: the warning for the pending theme is shown
    and not yet accepted; another theme has neither. *)
Lemma homepage_warning_gate_witness :
  shouldShowHomepageWarning (H := Demo.env) Demo.themes_state (JStr "mood")
    = JBool true ∧
  shouldShowHomepageWarning (H := Demo.env) Demo.themes_state
    (JStr "twentysixteen") = JBool false ∧
  hasAutoLoadingHomepageModalAccepted (H := Demo.env) Demo.themes_state
    (JStr "twentysixteen") = JBool false.
Proof.
  pose proof (homepage_warning_gate (H := Demo.env) Demo.themes_state
                (JStr "mood")) as (Hshow & _).
  pose proof (homepage_warning_gate (H := Demo.env) Demo.themes_state
                (JStr "twentysixteen")) as (_ & _ & Hother).
  split.
  - apply Hshow. eexists. repeat split; reflexivity.
  - apply Hother. discriminate.
Defined.

(** ** The active theme and its [-wpcom] suffix *)

Lemma append_cons (c : ascii) (a b : string) :
  String c a +:+ b = String c (a +:+ b).
Proof. reflexivity. Qed.

Lemma append_empty_l (s : string) : "" +:+ s = s.
Proof. reflexivity. Qed.

Lemma length_append (a b : string) :
  String.length (a +:+ b) = String.length a + String.length b.
Proof.
  induction a as [|c a IH]; [reflexivity|].
  rewrite append_cons. cbn. by rewrite IH.
Qed.

Lemma substring_whole (s : string) : substring 0 (String.length s) s = s.
Proof. induction s as [|c s IH]; cbn; [reflexivity | by rewrite IH]. Qed.

Lemma substring_nothing (n : nat) (s : string) : substring n 0 s = "".
Proof.
  revert n. induction s as [|c s IH]; intros [|n]; cbn; try reflexivity.
  apply IH.
Qed.

(** A string that starts with [pat] is [pat] followed by its remainder. *)
Lemma prefix_split (pat : string) : ∀ s,
  String.prefix pat s = true →
  s = pat +:+ substring (String.length pat)
                        (String.length s - String.length pat) s.
Proof.
  induction pat as [|a pat IH]; intros s Hprefix.
  - rewrite append_empty_l. cbn. rewrite Nat.sub_0_r. by rewrite substring_whole.
  - destruct s as [|b s]; [discriminate|]. cbn in Hprefix.
    destruct (ascii_dec a b) as [->|]; [|discriminate].
    rewrite append_cons. cbn. f_equal. by apply IH.
Qed.

Lemma prefix_append (pat rest : string) : String.prefix pat (pat +:+ rest) = true.
Proof.
  induction pat as [|a pat IH]; [by destruct rest|].
  rewrite append_cons. cbn. by destruct (ascii_dec a a).
Qed.

Lemma indexOf_unfold (pat s : string) :
  indexOf pat s =
    if String.prefix pat s then Some 0
    else match s with
         | EmptyString => None
         | String _ s' => S <$> indexOf pat s'
         end.
Proof. by destruct s. Qed.

Lemma replace_at_start (pat repl s : string) :
  String.prefix pat s = true →
  replace pat repl s =
    repl +:+ substring (String.length pat)
                       (String.length s - String.length pat) s.
Proof.
  intros Hprefix. unfold replace. rewrite indexOf_unfold, Hprefix.
  cbn [Nat.add]. by rewrite substring_nothing.
Qed.

Lemma replace_later (pat repl : string) (c : ascii) (s : string) :
  String.prefix pat (String c s) = false →
  replace pat repl (String c s) = String c (replace pat repl s).
Proof.
  intros Hprefix. unfold replace. rewrite (indexOf_unfold pat (String c s)), Hprefix.
  by destruct (indexOf pat s).
Qed.

(** An occurrence of the pattern is found. *)
Lemma indexOf_occurrence (pat before after : string) :
  is_Some (indexOf pat (before +:+ pat +:+ after)).
Proof.
  induction before as [|c before IH]; rewrite indexOf_unfold.
  - rewrite append_empty_l. by rewrite prefix_append.
  - destruct (String.prefix pat _); [done|]. rewrite append_cons.
    destruct IH as [pos ->]. done.
Qed.

(** Replacing a found pattern by the empty string shortens the string by the
    length of the pattern. *)
Lemma length_replace_found (pat : string) : ∀ s,
  is_Some (indexOf pat s) →
  String.length (replace pat "" s) + String.length pat = String.length s.
Proof.
  induction s as [|c s IH]; intros Hfound.
  - destruct (String.prefix pat "") eqn:Hprefix.
    + destruct pat; [reflexivity | discriminate].
    + rewrite indexOf_unfold, Hprefix in Hfound. by destruct Hfound.
  - destruct (String.prefix pat (String c s)) eqn:Hprefix.
    + rewrite replace_at_start by done.
      rewrite (prefix_split _ _ Hprefix) at 3.
      rewrite !length_append. cbn [String.length]. lia.
    + rewrite replace_later by done.
      rewrite indexOf_unfold, Hprefix in Hfound.
      destruct (indexOf pat s) as [pos|] eqn:Hs; [|by destruct Hfound].
      cbn [String.length]. rewrite <- IH by done. lia.
Qed.

(** The position found is that of an occurrence. *)
Lemma indexOf_found (pat : string) : ∀ s pos,
  indexOf pat s = Some pos →
  ∃ before after, s = before +:+ pat +:+ after ∧ String.length before = pos.
Proof.
  induction s as [|c s IH]; intros pos; rewrite indexOf_unfold.
  - destruct (String.prefix pat "") eqn:Hprefix; [|discriminate].
    intros [= <-]. destruct pat; [|discriminate]. by exists "", "".
  - destruct (String.prefix pat (String c s)) eqn:Hprefix.
    + intros [= <-]. exists "". eexists. split; [|reflexivity].
      rewrite append_empty_l. by apply prefix_split.
    + destruct (indexOf pat s) as [pos'|]; [|discriminate].
      intros [= <-]. destruct (IH pos' eq_refl) as (before & after & -> & <-).
      by exists (String c before), after.
Qed.

Lemma indexOf_None (pat s : string) :
  ¬ contains_str pat s → indexOf pat s = None.
Proof.
  intros Hnot. destruct (indexOf pat s) as [pos|] eqn:Hfound; [|done].
  destruct (indexOf_found _ _ _ Hfound) as (before & after & Hs & _).
  exfalso. apply Hnot. by exists before, after.
Qed.

Ltac match_char s :=
  let c := fresh "c" in
  destruct s as [|c s];
  [ try reflexivity
  | rewrite ?append_cons; cbn [String.prefix] in *;
    match goal with
    | |- context [ascii_dec ?a c] => destruct (ascii_dec a c); [|done]
    end ].

(** [-wpcom] has no proper prefix that is also its suffix: appending it to a
    string that does not start with it cannot make the string start with
    it. *)
Lemma prefix_wpcom_append (s : string) :
  s ≠ "" →
  String.prefix "-wpcom" s = false →
  String.prefix "-wpcom" (s +:+ "-wpcom") = false.
Proof.
  intros Hne Hprefix.
  match_char s; [done|].
  do 5 (match_char s).
  cbn in Hprefix. destruct s; discriminate.
Qed.

Lemma replace_suffix (themeId : string) :
  indexOf "-wpcom" themeId = None →
  replace "-wpcom" "" (themeId +:+ "-wpcom") = themeId.
Proof.
  induction themeId as [|c themeId IH]; intros Hnone; [reflexivity|].
  rewrite indexOf_unfold in Hnone.
  destruct (String.prefix "-wpcom" (String c themeId)) eqn:Hprefix; [discriminate|].
  destruct (indexOf "-wpcom" themeId) eqn:Hid; [discriminate|].
  pose proof (prefix_wpcom_append (String c themeId)) as Happ.
  rewrite append_cons in Happ |- *.
  rewrite replace_later by (by apply Happ).
  by rewrite IH.
Qed.

(** The active theme of a site with a stored, non-empty id. *)
Lemma getActiveTheme_stored `{Environment} state site (stored : string) :
  activeThemes (themes state) !! site = Some stored →
  stored ≠ "" →
  getActiveTheme state (Some site) = JStr (replace "-wpcom" "" stored).
Proof.
  intros Hstored Hne. unfold getActiveTheme. cbn. rewrite Hstored.
  by destruct stored.
Qed.

(** X1. When the stored active theme id is a theme id that does not itself
    contain [-wpcom], followed by [-wpcom], [isThemeActive] queried with the
    bare id returns true. *)
Theorem isThemeActive_suffixed `{Environment} (state : State) (site : site_id)
    (themeId : string) :
  activeThemes (themes state) !! site = Some (themeId +:+ "-wpcom") →
  ¬ contains_str "-wpcom" themeId →
  isThemeActive state (JStr themeId) (Some site) = true.
Proof.
  intros Hstored Hplain%indexOf_None.
  unfold isThemeActive. rewrite (getActiveTheme_stored _ _ _ Hstored).
  - rewrite replace_suffix by done. by apply strict_eq_true.
  - by destruct themeId.
Qed.

(** Site 5 of the demo state stores [twentysixteen-wpcom]; the bare id
    [twentysixteen] is active there. *)
Lemma isThemeActive_suffixed_witness :
  isThemeActive (H := Demo.env) Demo.themes_state (JStr "twentysixteen")
    Demo.site5 = true.
Proof.
  apply (isThemeActive_suffixed (H := Demo.env) Demo.themes_state (SiteNum 5)
           "twentysixteen"); [reflexivity|].
  intros (before & after & Heq).
  pose proof (indexOf_occurrence "-wpcom" before after) as Hfound.
  rewrite <- Heq in Hfound. by destruct Hfound.
Defined.

(** C4, at a stored id that holds [-wpcom] before its suffix.  The stored
    active theme id of site 5 is [acme-wpcom-pro] followed by [-wpcom];
    [getActiveTheme] removes the first [-wpcom], not the suffix, and
    [isThemeActive] queried with the bare id [acme-wpcom-pro] returns
    false. *)
Theorem isThemeActive_inner_wpcom :
  activeThemes Demo.themes_state_inner !! SiteNum 5 =
    Some ("acme-wpcom-pro" +:+ "-wpcom") ∧
  getActiveTheme (H := Demo.env) Demo.themes_state_inner Demo.site5 =
    JStr "acme-pro-wpcom" ∧
  isThemeActive (H := Demo.env) Demo.themes_state_inner (JStr "acme-wpcom-pro")
    Demo.site5 = false.
Proof. repeat split. Qed.

(** C9. When the stored active theme id of a site contains [-wpcom],
    [isThemeActive] queried with that stored id itself returns false: the
    first occurrence of [-wpcom] is removed before the comparison, so the
    compared id is shorter than the stored one. *)
Theorem isThemeActive_stored_id_false `{Environment} (state : State)
    (site : site_id) (stored : string) :
  activeThemes (themes state) !! site = Some stored →
  contains_str "-wpcom" stored →
  isThemeActive state (JStr stored) (Some site) = false.
Proof.
  intros Hstored (before & after & Hcontains).
  assert (is_Some (indexOf "-wpcom" stored)) as Hfound.
  { rewrite Hcontains. apply indexOf_occurrence. }
  apply length_replace_found in Hfound. cbn [String.length] in Hfound.
  unfold isThemeActive. rewrite (getActiveTheme_stored _ _ _ Hstored).
  - apply strict_eq_false. intros [= Heq]. rewrite Heq in Hfound. lia.
  - intros ->. cbn in Hfound. lia.
Qed.

(** On site 5 of the demo state the stored id [twentysixteen-wpcom] does not
    match itself. *)
Lemma isThemeActive_stored_id_false_witness :
  isThemeActive (H := Demo.env) Demo.themes_state (JStr "twentysixteen-wpcom")
    Demo.site5 = false.
Proof.
  apply (isThemeActive_stored_id_false (H := Demo.env) Demo.themes_state
           (SiteNum 5) "twentysixteen-wpcom"); [reflexivity|].
  by exists "twentysixteen", "".
Defined.

(** ** The URL selectors and an absent theme id *)

(** C6, as stated, fails.  With an absent theme id [getThemeCustomizeUrl]
    returns the customizer URL of the site, not [null], and
    [getThemeDemoUrl] returns [undefined].  With a theme id present,
    [getThemeSupportUrl] and [getThemePurchaseUrl] return [null] for a theme
    that is not premium and [getThemeForumUrl] returns [null] for a theme no
    directory holds; and what is returned is not always a relative path: the
    forum URL and the old showcase URL name a host with [//], and the demo
    URL and the details URL of a Jetpack site that is not managed here are
    absolute. *)
Lemma url_selectors_not_all_null :
  getThemeCustomizeUrl (H := Demo.env) Demo.themes_state JNull Demo.site5 =
    JStr "/customize/example.wordpress.com" ∧
  getThemeCustomizeUrl (H := Demo.env) Demo.themes_state JNull Demo.site5 ≠ JNull ∧
  getThemeSupportUrl (H := Demo.env) Demo.themes_state (JStr "twentysixteen")
    Demo.site5 = JNull ∧
  getThemeDemoUrl (H := Demo.env) Demo.themes_state JNull Demo.site5 = JUndefined ∧
  getThemePurchaseUrl (H := Demo.env) Demo.themes_state (JStr "twentysixteen")
    Demo.site5 = JNull ∧
  getThemeForumUrl (H := Demo.env) Demo.themes_state (JStr "unknown") = JNull ∧
  getThemeForumUrl (H := Demo.env) Demo.themes_state (JStr "twentysixteen") =
    JStr "//en.forums.wordpress.com/forum/themes" ∧
  relative_path "//en.forums.wordpress.com/forum/themes" = false ∧
  getThemeDemoUrl (H := Demo.env) Demo.themes_state (JStr "mood") Demo.site5 =
    JStr "https://mooddemo.wordpress.com/" ∧
  relative_path "https://mooddemo.wordpress.com/" = false ∧
  getThemeDetailsUrl (H := Demo.jetpack_unmanaged_env) Demo.themes_state_jetpack
    (JStr "mood") Demo.site7 =
    JStr "https://example.org/wp-admin/themes.php?theme=mood" ∧
  relative_path "https://example.org/wp-admin/themes.php?theme=mood" = false ∧
  getThemeDetailsUrl (H := Demo.old_showcase_env) Demo.themes_state
    (JStr "mood") Demo.site5 =
    JStr "//wordpress.com/themes/mood/example.wordpress.com" ∧
  relative_path "//wordpress.com/themes/mood/example.wordpress.com" = false.
Proof. repeat split. discriminate. Qed.

Lemma relative_path_append (url rest : string) :
  relative_path url = true →
  String.prefix "/" rest = false →
  relative_path (url +:+ rest) = true.
Proof.
  unfold relative_path. intros Hurl Hrest.
  destruct url as [|first [|second url]]; [discriminate| |].
  - rewrite append_cons, append_empty_l. cbn [String.prefix] in Hurl |- *.
    destruct (ascii_dec "/" first); [|done].
    rewrite Hrest. by destruct rest.
  - rewrite !append_cons. cbn [String.prefix] in Hurl |- *.
    destruct (ascii_dec "/" first); [|done].
    destruct (ascii_dec "/" second); [|done].
    by destruct url.
Qed.

(** C6, amended.  With an absent (falsy) theme id the details, support, help
    and signup selectors return [null] whatever the other arguments, and
    [getThemeCustomizeUrl] returns the customizer URL of the site unchanged.
    With a theme id present each selector returns what is stated below: the
    details, help and signup URLs are strings; the support URL is a string
    for a premium theme and [null] otherwise; the customizer URL is extended
    by the theme unless the site id is absent, the theme is active or, off
    Jetpack, the wpcom directory does not hold it.  Whatever the theme id, the
    purchase URL is a string for a premium theme off Jetpack and [null]
    otherwise, the forum URL is a string for a theme that is premium or in a
    directory and [null] otherwise, and the demo URL is the [demo_uri] of the
    canonical theme, [undefined] without one.  The strings are relative
    paths for the signup and purchase selectors, for the details (off a
    Jetpack site that is not managed here), help and support selectors when
    [manage/themes/details] is enabled, and for the customize selector when
    the customizer URL is one. *)
Theorem url_selectors_by_theme_id `{Environment} (state : State)
    (themeId : jsval) (siteId : option site_id) :
  (truthy themeId = false →
     getThemeDetailsUrl state themeId siteId = JNull ∧
     getThemeSupportUrl state themeId siteId = JNull ∧
     getThemeHelpUrl state themeId siteId = JNull ∧
     getThemeSignupUrl state themeId = JNull ∧
     getThemeCustomizeUrl state themeId siteId = getCustomizerUrl state siteId) ∧
  (truthy themeId = true →
     getThemeDetailsUrl state themeId siteId =
       JStr (if jetpack_without_management state siteId
             then to_string (getSiteOption state siteId "admin_url") +:+
                  "themes.php?theme=" +:+ to_string themeId
             else (if config_isEnabled "manage/themes/details"
                   then "/theme/" +:+ to_string themeId
                   else oldShowcaseUrl +:+ to_string themeId) +:+
                  site_suffix state siteId) ∧
     getThemeHelpUrl state themeId siteId =
       JStr ((if config_isEnabled "manage/themes/details"
              then "/theme/" +:+ to_string themeId +:+ "/support"
              else oldShowcaseUrl +:+ to_string themeId) +:+
             site_suffix state siteId) ∧
     getThemeSignupUrl state themeId =
       JStr (if isThemePremium state themeId
             then ("/start/with-theme?ref=calypshowcase&theme=" +:+
                   to_string themeId) +:+ "&premium=true"
             else "/start/with-theme?ref=calypshowcase&theme=" +:+
                  to_string themeId) ∧
     getThemeSupportUrl state themeId siteId =
       (if isThemePremium state themeId
        then JStr (if config_isEnabled "manage/themes/details"
                   then "/theme/" +:+ to_string themeId +:+ "/setup" +:+
                        site_suffix state siteId
                   else oldShowcaseUrl +:+ site_suffix state siteId +:+
                        to_string themeId +:+ "/support")
        else JNull) ∧
     getThemeCustomizeUrl state themeId siteId =
       (if negb (truthy_site siteId) || isThemeActive state themeId siteId
        then getCustomizerUrl state siteId
        else if isJetpackSite state siteId
        then JStr (to_string (getCustomizerUrl state siteId) +:+
                   (if includes_str (getCustomizerUrl state siteId) "?"
                    then "&" else "?") +:+
                   "theme=" +:+ to_string themeId)
        else match getTheme state (Some Wpcom) themeId with
             | OObj theme =>
                 JStr (to_string (getCustomizerUrl state siteId) +:+
                       (if includes_str (getCustomizerUrl state siteId) "?"
                        then "&" else "?") +:+
                       "theme=" +:+ to_string (stylesheet theme))
             | _ => getCustomizerUrl state siteId
             end)) ∧
  getThemePurchaseUrl state themeId siteId =
    (if isJetpackSite state siteId || negb (isThemePremium state themeId)
     then JNull
     else JStr ("/checkout/" +:+ to_string (getSiteSlug state siteId) +:+
                "/theme:" +:+ to_string themeId)) ∧
  getThemeForumUrl state themeId =
    (if isThemePremium state themeId
     then JStr ("//premium-themes.forums.wordpress.com/forum/" +:+
                to_string themeId)
     else if isWpcomTheme state themeId
     then JStr "//en.forums.wordpress.com/forum/themes"
     else if isWporgTheme state themeId
     then JStr ("//wordpress.org/support/theme/" +:+ to_string themeId)
     else JNull) ∧
  getThemeDemoUrl state themeId siteId =
    match getCanonicalTheme state siteId themeId with
    | OObj theme => demo_uri theme
    | _ => JUndefined
    end ∧
  (truthy themeId = true →
     (∃ path, getThemeSignupUrl state themeId = JStr path ∧
              relative_path path = true) ∧
     (config_isEnabled "manage/themes/details" = true →
        (jetpack_without_management state siteId = false →
         ∃ path, getThemeDetailsUrl state themeId siteId = JStr path ∧
                 relative_path path = true) ∧
        (∃ path, getThemeHelpUrl state themeId siteId = JStr path ∧
                 relative_path path = true) ∧
        (isThemePremium state themeId = true →
         ∃ path, getThemeSupportUrl state themeId siteId = JStr path ∧
                 relative_path path = true))) ∧
  (isJetpackSite state siteId = false → isThemePremium state themeId = true →
   ∃ path, getThemePurchaseUrl state themeId siteId = JStr path ∧
           relative_path path = true) ∧
  (∀ url, getCustomizerUrl state siteId = JStr url → relative_path url = true →
          ∃ path, getThemeCustomizeUrl state themeId siteId = JStr path ∧
                  relative_path path = true).
Proof.
  unfold getThemeDetailsUrl, getThemeSupportUrl, getThemeHelpUrl,
    getThemeSignupUrl, getThemeCustomizeUrl, getThemePurchaseUrl,
    getThemeForumUrl, getThemeDemoUrl, jetpack_without_management, get_prop.
  split; [|split; [|split; [|split; [|split; [|split; [|split]]]]]].
  - intros ->. rewrite andb_false_r. by cbn.
  - intros ->. rewrite andb_true_r. cbn [negb orb].
    repeat split.
    + by destruct (_ && negb _).
    + by destruct (isThemePremium state themeId).
    + destruct (isThemePremium state themeId); [|done].
      by destruct (config_isEnabled _).
  - done.
  - done.
  - done.
  - intros ->. cbn [negb]. split.
    + destruct (isThemePremium state themeId); eexists; (split; [reflexivity|]);
        reflexivity.
    + intros ->. split; [|split].
      * intros ->. eexists. split; [reflexivity|]. reflexivity.
      * eexists. split; [reflexivity|]. reflexivity.
      * intros ->. eexists. split; [reflexivity|]. reflexivity.
  - intros -> ->. eexists. split; [reflexivity|]. reflexivity.
  - intros url -> Hrelative. cbn [to_string].
    destruct (_ || _); [by exists url|].
    assert (∀ value, relative_path (url +:+ (if includes_str (JStr url) "?"
                                             then "&" else "?") +:+
                                    "theme=" +:+ value) = true) as Hextended.
    { intros value. apply relative_path_append; [done|].
      by destruct (includes_str (JStr url) "?"). }
    destruct (isJetpackSite state siteId); [by eexists|].
    destruct (getTheme state (Some Wpcom) themeId); by eexists.
Qed.

(** The selectors at the demo state: no theme id, and the id of a premium
    theme. *)
Lemma url_selectors_by_theme_id_witness :
  (getThemeDetailsUrl (H := Demo.env) Demo.themes_state JUndefined Demo.site5 = JNull ∧
   getThemeSupportUrl (H := Demo.env) Demo.themes_state JUndefined Demo.site5 = JNull ∧
   getThemeHelpUrl (H := Demo.env) Demo.themes_state JUndefined Demo.site5 = JNull ∧
   getThemeSignupUrl (H := Demo.env) Demo.themes_state JUndefined = JNull ∧
   getThemeCustomizeUrl (H := Demo.env) Demo.themes_state JUndefined Demo.site5 =
     JStr "/customize/example.wordpress.com") ∧
  getThemeDetailsUrl (H := Demo.env) Demo.themes_state (JStr "mood") Demo.site5 =
    JStr "/theme/mood/example.wordpress.com" ∧
  ∃ path, getThemePurchaseUrl (H := Demo.env) Demo.themes_state (JStr "mood")
            Demo.site5 = JStr path ∧ relative_path path = true.
Proof.
  pose proof (url_selectors_by_theme_id (H := Demo.env) Demo.themes_state
                JUndefined Demo.site5) as (Habsent & _).
  pose proof (url_selectors_by_theme_id (H := Demo.env) Demo.themes_state
                (JStr "mood") Demo.site5)
    as (_ & Hpresent & _ & _ & _ & _ & Hpurchase & _).
  split; [|split].
  - apply Habsent. reflexivity.
  - destruct (Hpresent eq_refl) as (Hdetails & _). exact Hdetails.
  - apply Hpurchase; reflexivity.
Defined.

(** ** The currency formatter *)

Lemma formatValueForCurrency_USD toString value :
  CheckoutDemo.formatValueForCurrency toString "USD" value =
    CheckoutDemo.Normal ("$" +:+ toString (value / 100)%float).
Proof. reflexivity. Qed.

Lemma formatValueForCurrency_other toString currency value :
  currency ≠ "USD" →
  CheckoutDemo.formatValueForCurrency toString currency value =
    CheckoutDemo.Throw ("Unsupported currency " +:+ currency +:+ "'").
Proof.
  intros Hother%String.eqb_neq. unfold CheckoutDemo.formatValueForCurrency.
  by rewrite Hother.
Qed.

(** X2. The quotient is a double: two different integer amounts, both exact
    as doubles, have the same quotient by 100 and so the same formatted
    string, whatever the rendering. *)
Theorem formatValueForCurrency_double_quotient (toString : float → string) :
  PrimFloat.eqb 8000000000000007 8000000000000006 = false ∧
  CheckoutDemo.formatValueForCurrency toString "USD" 8000000000000007 =
  CheckoutDemo.formatValueForCurrency toString "USD" 8000000000000006.
Proof. split; reflexivity. Qed.

Lemma fold_last_currency (items : list CheckoutDemo.LineItem) : ∀ first,
  fold_left (λ (lastCurrency : string) item,
               CheckoutDemo.currency (CheckoutDemo.amount item))
            items first =
  default first
    ((λ item, CheckoutDemo.currency (CheckoutDemo.amount item)) <$> last items).
Proof.
  induction items as [|item items IH]; intros first; [reflexivity|].
  cbn [fold_left]. rewrite IH.
  destruct items as [|next items]; [reflexivity|].
  change (last (item :: next :: items)) with (last (next :: items)).
  by destruct (last_is_Some (next :: items)) as [_ [final ->]].
Qed.

(** X3. [getTotal] formats the sum in the currency of the last item ([USD] for
    no item) and throws exactly when that currency is not [USD]. *)
Theorem getTotal_throws_iff (toString : float → string)
    (items : list CheckoutDemo.LineItem) :
  (∃ message, CheckoutDemo.getTotal toString items = CheckoutDemo.Throw message) ↔
  default "USD"
    ((λ item, CheckoutDemo.currency (CheckoutDemo.amount item)) <$> last items)
    ≠ "USD".
Proof.
  unfold CheckoutDemo.getTotal. rewrite fold_last_currency.
  set (total := fold_left _ items 0%float).
  set (currency := default "USD" _).
  destruct (decide (currency = "USD")) as [Husd|Hother].
  - rewrite Husd, formatValueForCurrency_USD. cbn.
    split; [by intros [message [=]] | done].
  - rewrite formatValueForCurrency_other by done. cbn. split; eauto.
Qed.

(** * Further properties *)

(** ** Themes for a query: what is already free of duplicates *)

Lemma duplicate_free_NoDup array :
  duplicate_free array → NoDup (identity <$> array).
Proof.
  intros Hfree. apply NoDup_alt. intros i j k Hi Hj.
  rewrite list_lookup_fmap in Hi, Hj.
  destruct (array !! i) as [x|] eqn:Ex; [|discriminate].
  destruct (array !! j) as [y|] eqn:Ey; [|discriminate].
  injection Hi as Hi. injection Hj as Hj.
  apply (Hfree i j x y Ex Ey). apply same_value_zero_identity. congruence.
Qed.

Lemma fold_uniq_push_fresh array : ∀ result,
  NoDup (identity <$> (result ++ array)) →
  fold_left uniq_push array result = result ++ array.
Proof.
  induction array as [|value array IH]; intros result Hnodup.
  - by rewrite app_nil_r.
  - cbn [fold_left]. unfold uniq_push at 2.
    destruct (existsb (same_value_zero value) result) eqn:Eseen.
    + apply existsb_same_value_zero in Eseen.
      rewrite fmap_app in Hnodup. apply NoDup_app in Hnodup as (_ & Hdisjoint & _).
      exfalso. apply (Hdisjoint _ Eseen). cbn. apply elem_of_cons. by left.
    + rewrite IH; rewrite <- app_assoc; done.
Qed.

Lemma uniq_duplicate_free array : duplicate_free array → uniq array = array.
Proof.
  intros Hfree%duplicate_free_NoDup. unfold uniq.
  by rewrite fold_uniq_push_fresh.
Qed.

(** X4. When the array the manager yields for the query holds no
    [undefined] entry and no value twice, [getThemesForQuery] returns exactly
    that array; and removing duplicates twice removes no more than once. *)
Theorem getThemesForQuery_passes_clean_array `{Environment} (state : State)
    (siteId : option site_id) (query : Query) (manager : ThemeQueryManager)
    (themes : list (nullable Theme)) :
  manager_of state siteId = Some manager →
  getItems manager query = OObj themes →
  OUndefined ∉ themes →
  duplicate_free themes →
  getThemesForQuery state siteId query = OObj themes ∧
  uniq (uniq themes) = uniq themes.
Proof.
  intros Hmanager Hitems Hresolved Hfree. split.
  - unfold getThemesForQuery. rewrite Hmanager, Hitems.
    destruct (lodash_includes themes OUndefined) eqn:Einc.
    { by apply lodash_includes_undefined in Einc. }
    by rewrite uniq_duplicate_free.
  - apply uniq_duplicate_free, uniq_spec.
Qed.

Lemma getThemesForQuery_passes_clean_array_witness :
  getThemesForQuery (H := Demo.env) Demo.themes_state_jetpack Demo.site7
    Demo.default_query = OObj [OObj Demo.twentysixteen_org] ∧
  uniq (uniq [OObj Demo.twentysixteen_org]) = uniq [OObj Demo.twentysixteen_org].
Proof.
  apply (getThemesForQuery_passes_clean_array (H := Demo.env)
           Demo.themes_state_jetpack Demo.site7 Demo.default_query
           Demo.site7_manager [OObj Demo.twentysixteen_org]);
    try reflexivity.
  - intros Hin. apply elem_of_cons in Hin as [Hin|Hin]; [discriminate|].
    by apply not_elem_of_nil in Hin.
  - intros [|i] [|j] x y Hi Hj _; try reflexivity; destruct i || destruct j;
      discriminate.
Defined.

(** ** Canonical theme: where the record comes from *)

(** X5. A record [getCanonicalTheme] returns is the record one of the three
    sources holds for the id, and when one of the two directories holds the
    id the fallback site does not matter. *)
Theorem getCanonicalTheme_from_a_source `{Environment} (state : State)
    (siteId : option site_id) (themeId : jsval) :
  (∀ theme, getCanonicalTheme state siteId themeId = OObj theme →
            source_has state (Some Wpcom) themeId theme ∨
            source_has state (Some Wporg) themeId theme ∨
            source_has state siteId themeId theme) ∧
  (∀ theme other, source_has state (Some Wpcom) themeId theme ∨
                  source_has state (Some Wporg) themeId theme →
                  getCanonicalTheme state siteId themeId =
                  getCanonicalTheme state other themeId).
Proof.
  split.
  - intros theme. rewrite getCanonicalTheme_chain, !getTheme_has.
    destruct (truthy_obj (getTheme state (Some Wpcom) themeId)); [tauto|].
    destruct (truthy_obj (getTheme state (Some Wporg) themeId)); [tauto|].
    destruct (truthy_obj (getTheme state siteId themeId)); [tauto|discriminate].
  - intros theme other Hheld. rewrite !getCanonicalTheme_chain.
    destruct Hheld as [Hcom%getTheme_has | Horg%getTheme_has].
    + by rewrite Hcom.
    + rewrite Horg. cbn.
      by destruct (truthy_obj (getTheme state (Some Wpcom) themeId)).
Qed.

Lemma getCanonicalTheme_from_a_source_witness :
  getCanonicalTheme (H := Demo.env) Demo.themes_state Demo.site5 (JStr "mood") =
  getCanonicalTheme (H := Demo.env) Demo.themes_state None (JStr "mood").
Proof.
  pose proof (getCanonicalTheme_from_a_source (H := Demo.env) Demo.themes_state
                Demo.site5 (JStr "mood")) as (_ & Hsame).
  apply (Hsame Demo.mood None). left.
  exists Demo.wpcom_manager. split; reflexivity.
Defined.

(** ** The active theme: which stored ids match themselves *)

Lemma replace_absent (pat repl s : string) :
  indexOf pat s = None → replace pat repl s = s.
Proof. intros Hnone. unfold replace. by rewrite Hnone. Qed.

Lemma contains_str_length (pat s : string) :
  contains_str pat s → String.length pat ≤ String.length s.
Proof. intros (before & after & ->). rewrite !length_append. lia. Qed.

(** A stored id without [-wpcom] is compared as it is. *)
Lemma isThemeActive_plain_stored `{Environment} state site (stored : string) :
  activeThemes (themes state) !! site = Some stored →
  ¬ contains_str "-wpcom" stored →
  isThemeActive state (JStr stored) (Some site) = true.
Proof.
  intros Hstored Hplain%indexOf_None.
  destruct (decide (stored = "")) as [->|Hne].
  - unfold isThemeActive, getActiveTheme. cbn. by rewrite Hstored.
  - unfold isThemeActive. rewrite (getActiveTheme_stored _ _ _ Hstored Hne).
    rewrite replace_absent by done. by apply strict_eq_true.
Qed.

(** X6. [isThemeActive] queried with the very id stored as the active theme
    of the site returns true exactly when that id does not contain
    [-wpcom]. *)
Theorem isThemeActive_stored_id_iff `{Environment} (state : State)
    (site : site_id) (stored : string) :
  activeThemes (themes state) !! site = Some stored →
  isThemeActive state (JStr stored) (Some site) = true ↔
  ¬ contains_str "-wpcom" stored.
Proof.
  intros Hstored. split; [|by apply isThemeActive_plain_stored].
  intros Hactive (before & after & Hcontains).
  assert (is_Some (indexOf "-wpcom" stored)) as Hfound.
  { rewrite Hcontains. apply indexOf_occurrence. }
  apply length_replace_found in Hfound. cbn [String.length] in Hfound.
  unfold isThemeActive in Hactive.
  rewrite (getActiveTheme_stored _ _ _ Hstored) in Hactive.
  - apply strict_eq_true in Hactive as [= Heq]. rewrite Heq in Hfound. lia.
  - intros ->. cbn in Hfound. lia.
Qed.

Lemma isThemeActive_stored_id_iff_witness :
  isThemeActive (H := Demo.env) Demo.themes_state (JStr "twentysixteen-wpcom")
    Demo.site5 = true ↔
  ¬ contains_str "-wpcom" "twentysixteen-wpcom".
Proof.
  apply (isThemeActive_stored_id_iff (H := Demo.env) Demo.themes_state
           (SiteNum 5) "twentysixteen-wpcom").
  reflexivity.
Defined.

(** ** Customizer URL: the added query parameter *)

Lemma append_assoc (a b c : string) : (a +:+ b) +:+ c = a +:+ (b +:+ c).
Proof.
  induction a as [|ch a IH]; [reflexivity|].
  by rewrite !append_cons, IH.
Qed.

Lemma includes_str_contains (url value : string) :
  includes_str (JStr url) value = true ↔ contains_str value url.
Proof.
  unfold includes_str. rewrite bool_decide_eq_true. split.
  - intros [pos Hfound].
    destruct (indexOf_found _ _ _ Hfound) as (before & after & -> & _).
    by exists before, after.
  - intros (before & after & ->). apply indexOf_occurrence.
Qed.

(** X7. [getThemeCustomizeUrl] returns the customizer URL unchanged for the
    theme that is active on the site.  For another theme on a Jetpack site
    with a customizer URL, it appends the parameter [theme=<id>] with [&]
    when the URL already holds a [?] and with [?] when it does not, so that
    the result always holds a [?].  Off Jetpack, a theme the wpcom directory
    does not hold leaves the customizer URL unchanged. *)
Theorem getThemeCustomizeUrl_parameter `{Environment} (state : State)
    (themeId : jsval) (siteId : option site_id) :
  (isThemeActive state themeId siteId = true →
   getThemeCustomizeUrl state themeId siteId = getCustomizerUrl state siteId) ∧
  (∀ url,
     truthy_site siteId = true → truthy themeId = true →
     isThemeActive state themeId siteId = false →
     isJetpackSite state siteId = true →
     getCustomizerUrl state siteId = JStr url →
     (contains_str "?" url →
      getThemeCustomizeUrl state themeId siteId =
        JStr (url +:+ "&theme=" +:+ to_string themeId)) ∧
     (¬ contains_str "?" url →
      getThemeCustomizeUrl state themeId siteId =
        JStr (url +:+ "?theme=" +:+ to_string themeId)) ∧
     ∃ result, getThemeCustomizeUrl state themeId siteId = JStr result ∧
               contains_str "?" result) ∧
  (isJetpackSite state siteId = false →
   truthy_obj (getTheme state (Some Wpcom) themeId) = false →
   getThemeCustomizeUrl state themeId siteId = getCustomizerUrl state siteId).
Proof.
  unfold getThemeCustomizeUrl. split; [|split].
  - intros ->. by rewrite orb_true_r.
  - intros url -> -> -> -> ->. cbn [andb negb orb to_string].
    destruct (includes_str (JStr url) "?") eqn:Einc.
    + apply includes_str_contains in Einc as Hholds. split; [done|]. split; [done|].
      eexists. split; [reflexivity|].
      destruct Hholds as (before & after & ->).
      exists before, (after +:+ "&" +:+ "theme=" +:+ to_string themeId).
      by rewrite !append_assoc.
    + assert (¬ contains_str "?" url) as Hnone.
      { intros Hholds%includes_str_contains. congruence. }
      split; [done|]. split; [done|].
      eexists. split; [reflexivity|].
      by exists url, ("theme=" +:+ to_string themeId).
  - intros -> Hunknown.
    destruct (_ || _); [done|].
    by destruct (getTheme state (Some Wpcom) themeId).
Qed.

Lemma getThemeCustomizeUrl_parameter_witness :
  getThemeCustomizeUrl (H := Demo.jetpack_env) Demo.themes_state_jetpack
    (JStr "twentysixteen") Demo.site7 =
    JStr "https://example.org/wp-admin/customize.php?return=%2F&theme=twentysixteen".
Proof.
  pose proof (getThemeCustomizeUrl_parameter (H := Demo.jetpack_env)
                Demo.themes_state_jetpack (JStr "twentysixteen") Demo.site7)
    as (_ & Hother & _).
  destruct (Hother "https://example.org/wp-admin/customize.php?return=%2F"
              eq_refl eq_refl eq_refl eq_refl eq_refl) as (Hamp & _).
  apply Hamp.
  by exists "https://example.org/wp-admin/customize.php", "return=%2F".
Defined.

(** ** The suffixed theme id *)

(** X8. The id [getSuffixedThemeId] gives for a theme id that does not
    contain [-wpcom] is the id itself or the id followed by [-wpcom], and
    either way it is read back as the bare id: when it is the stored active
    theme id of a site, [isThemeActive] queried with the bare id returns
    true. *)
Theorem getSuffixedThemeId_read_back `{Environment} (state : State)
    (themeId : string) (siteId : option site_id) (site : site_id) :
  ¬ contains_str "-wpcom" themeId →
  activeThemes (themes state) !! site =
    Some (to_string (getSuffixedThemeId state (JStr themeId) siteId)) →
  (getSuffixedThemeId state (JStr themeId) siteId = JStr themeId ∨
   getSuffixedThemeId state (JStr themeId) siteId = JStr (themeId +:+ "-wpcom")) ∧
  isThemeActive state (JStr themeId) (Some site) = true.
Proof.
  intros Hplain. unfold getSuffixedThemeId.
  destruct (_ && negb _); cbn [to_string]; intros Hstored.
  - split; [by right|]. unfold isThemeActive.
    rewrite (getActiveTheme_stored _ _ _ Hstored).
    + rewrite replace_suffix by (by apply indexOf_None).
      by apply strict_eq_true.
    + by destruct themeId.
  - split; [by left|]. by apply isThemeActive_plain_stored.
Qed.

Lemma getSuffixedThemeId_read_back_witness :
  isThemeActive (H := Demo.jetpack_env) Demo.themes_state_jetpack (JStr "mood")
    Demo.site7 = true.
Proof.
  apply (getSuffixedThemeId_read_back (H := Demo.jetpack_env)
           Demo.themes_state_jetpack "mood" Demo.site7 (SiteNum 7)).
  - intros (before & after & Heq).
    pose proof (indexOf_occurrence "-wpcom" before after) as Hfound.
    rewrite <- Heq in Hfound. by destruct Hfound.
  - reflexivity.
Defined.

(** ** Theme installs *)



(** ** Pages of a query *)

Lemma getThemesLastPageForQuery_chain `{ThemesEnvironment} state siteId query :
  ∀ lastPage, getThemesLastPageForQuery state siteId query = Some lastPage →
              (1 ≤ lastPage)%Z.
Proof.
  intros lastPage. unfold getThemesLastPageForQuery.
  destruct (paging_of state siteId) as [manager|]; [|discriminate].
  destruct (getNumberOfPages manager query) as [pages|]; [|discriminate].
  destruct (isJetpackSite state siteId); intros [= <-]; lia.
Qed.

(** X10. The last page [getThemesLastPageForQuery] returns is never below 1.
    It is [null] exactly when the site has no collection or the collection
    does not know the number of pages; otherwise it is 1 on a Jetpack site,
    whatever number the collection reports, and the reported number, raised
    to 1 when it is lower, elsewhere. *)
Theorem getThemesLastPageForQuery_bounds `{ThemesEnvironment} (state : State)
    (siteId : option site_id) (query : Query) :
  (∀ lastPage, getThemesLastPageForQuery state siteId query = Some lastPage →
               (1 ≤ lastPage)%Z) ∧
  (getThemesLastPageForQuery state siteId query = None ↔
     paging_of state siteId = None ∨
     ∃ manager, paging_of state siteId = Some manager ∧
                getNumberOfPages manager query = None) ∧
  (∀ manager pages,
     paging_of state siteId = Some manager →
     getNumberOfPages manager query = Some pages →
     getThemesLastPageForQuery state siteId query =
       Some (if isJetpackSite state siteId then 1 else Z.max pages 1)%Z).
Proof.
  split; [apply getThemesLastPageForQuery_chain|].
  unfold getThemesLastPageForQuery. split.
  - destruct (paging_of state siteId) as [manager|]; [|by split; [left|]].
    destruct (getNumberOfPages manager query) as [pages|] eqn:Epages.
    + split.
      * by destruct (isJetpackSite state siteId).
      * intros [[=] | (m & [= <-] & Hnone)]. congruence.
    + split; [|done]. intros _. right. by exists manager.
  - intros manager pages -> ->. by destruct (isJetpackSite state siteId).
Qed.

Lemma getThemesLastPageForQuery_bounds_witness :
  getThemesLastPageForQuery (H := Demo.themes_env) Demo.themes_state_jetpack
    Demo.site7 Demo.default_query = Some 1%Z ∧
  getThemesLastPageForQuery (H := Demo.themes_env) Demo.themes_state_jetpack
    (Some Wpcom) Demo.default_query = Some 3%Z.
Proof.
  pose proof (getThemesLastPageForQuery_bounds (H := Demo.themes_env)
                Demo.themes_state_jetpack Demo.site7 Demo.default_query)
    as (_ & _ & Hjetpack).
  pose proof (getThemesLastPageForQuery_bounds (H := Demo.themes_env)
                Demo.themes_state_jetpack (Some Wpcom) Demo.default_query)
    as (_ & _ & Hwpcom).
  split.
  - apply (Hjetpack Demo.site7_paging 0%Z); reflexivity.
  - apply (Hwpcom Demo.wpcom_paging 3%Z); reflexivity.
Defined.

Lemma isThemesLastPageForQuery_given `{ThemesEnvironment} state siteId query :
  isThemesLastPageForQuery state siteId (Some query) =
    match getThemesLastPageForQuery state siteId query with
    | None => None
    | Some lastPage => Some (lastPage =? page_or_default query)%Z
    end.
Proof. reflexivity. Qed.

(** X11. [isThemesLastPageForQuery] is [null] exactly when the last page is
    unknown.  A page it reports as the last one is never below 1.  On a
    Jetpack site with a known number of pages, the page of the query (the
    default page when the query names none, or names page 0) is the last one
    exactly when it is page 1. *)
Theorem isThemesLastPageForQuery_pages `{ThemesEnvironment} (state : State)
    (siteId : option site_id) (query : Query) :
  (isThemesLastPageForQuery state siteId (Some query) = None ↔
     getThemesLastPageForQuery state siteId query = None) ∧
  (isThemesLastPageForQuery state siteId (Some query) = Some true →
     (1 ≤ page_or_default query)%Z) ∧
  (∀ manager pages,
     paging_of state siteId = Some manager →
     getNumberOfPages manager query = Some pages →
     isJetpackSite state siteId = true →
     isThemesLastPageForQuery state siteId (Some query) =
       Some (bool_decide (page_or_default query = 1%Z))).
Proof.
  pose proof (getThemesLastPageForQuery_chain state siteId query) as Hlast.
  rewrite isThemesLastPageForQuery_given. split; [|split].
  - destruct (getThemesLastPageForQuery state siteId query); split; intros Heq;
      first [reflexivity | discriminate Heq].
  - destruct (getThemesLastPageForQuery state siteId query) as [lastPage|] eqn:E;
      [|discriminate].
    intros [= Heq%Z.eqb_eq]. rewrite <- Heq. by apply Hlast.
  - intros manager pages Hmanager Hpages Hjetpack.
    unfold getThemesLastPageForQuery. rewrite Hmanager, Hpages, Hjetpack.
    f_equal. destruct (Z.eqb_spec 1 (page_or_default query)) as [Heq|Hne].
    + by rewrite bool_decide_eq_true_2.
    + by rewrite bool_decide_eq_false_2.
Qed.

Lemma isThemesLastPageForQuery_pages_witness :
  isThemesLastPageForQuery (H := Demo.themes_env) Demo.themes_state_jetpack
    Demo.site7 (Some Demo.default_query) = Some true ∧
  isThemesLastPageForQuery (H := Demo.themes_env) Demo.themes_state_jetpack
    Demo.site7 (Some Demo.second_page) = Some false.
Proof.
  pose proof (isThemesLastPageForQuery_pages (H := Demo.themes_env)
                Demo.themes_state_jetpack Demo.site7 Demo.default_query)
    as (_ & _ & Hfirst).
  pose proof (isThemesLastPageForQuery_pages (H := Demo.themes_env)
                Demo.themes_state_jetpack Demo.site7 Demo.second_page)
    as (_ & _ & Hsecond).
  split.
  - apply (Hfirst Demo.site7_paging 0%Z); reflexivity.
  - apply (Hsecond Demo.site7_paging 0%Z); reflexivity.
Defined.

(** ** Themes for a query, all pages *)

Lemma recommended_ids_themes `{ThemesEnvironment} (state : State) :
  recommended_ids (recommended (recommendedThemes (themes_more state))) =
  id <$> getRecommendedThemes state.
Proof.
  unfold getRecommendedThemes.
  by destruct (recommended (recommendedThemes (themes_more state))).
Qed.

(** The filter throws exactly when an entry is no object; otherwise it keeps,
    in order, the themes whose id is not listed. *)
Lemma filter_out_ids_objects themeIds array :
  Forall is_object array →
  ∃ kept,
    filter_out_ids themeIds array = Returns kept ∧
    sublist kept array ∧
    ∀ entry, entry ∈ kept ↔
             entry ∈ array ∧ ∃ theme, entry = OObj theme ∧ id theme ∉ themeIds.
Proof.
  induction 1 as [|entry array [theme ->] _ (kept & Hkept & Hsub & Hin)].
  - exists []. split; [done|]. split; [done|]. intros entry. split.
    + intros Hnil. by apply not_elem_of_nil in Hnil.
    + intros [Hnil _]. by apply not_elem_of_nil in Hnil.
  - cbn [filter_out_ids]. rewrite Hkept.
    destruct (bool_decide (id theme ∈ themeIds)) eqn:Elisted.
    + apply bool_decide_eq_true in Elisted.
      exists kept. split; [done|]. split; [by apply sublist_cons|].
      intros entry. rewrite Hin, elem_of_cons. split.
      * intros [Hentry Hfree]. split; [by right | done].
      * intros [[-> | Hentry] (other & Heq & Hfree)]; [|by eauto].
        injection Heq as <-. done.
    + apply bool_decide_eq_false in Elisted.
      exists (OObj theme :: kept). split; [done|]. split; [by apply sublist_skip|].
      intros entry. rewrite !elem_of_cons, Hin. split.
      * intros [-> | [Hentry Hfree]]; [|by split; [right|]].
        split; [by left | by exists theme].
      * intros [[-> | Hentry] Hfree]; [by left | by right].
Qed.

Lemma filter_out_ids_throws themeIds array :
  ¬ Forall is_object array → filter_out_ids themeIds array = TypeError.
Proof.
  induction array as [|entry array IH]; intros Hnot.
  - exfalso. apply Hnot. constructor.
  - destruct entry as [| |theme]; try reflexivity.
    cbn [filter_out_ids]. rewrite IH; [done|].
    intros Hrest. apply Hnot. constructor; [by exists theme | done].
Qed.

(** For a query without search text, filter and tier, over a collection whose
    entries for the query are all theme objects, the function given to
    [createSelector] returns an array that is free of duplicates and of
    recommended themes. *)
Lemma getThemesForQueryIgnoringPage_computed `{ThemesEnvironment}
    (state : State) (siteId : option site_id) (query : Query)
    (manager : ThemeQueryManagerPaging) (array : list (nullable Theme)) :
  paging_of state siteId = Some manager →
  getItemsIgnoringPage manager query = OObj array →
  is_filtered query = false →
  Forall is_object array →
  ∃ result,
    getThemesForQueryIgnoringPage state siteId query = Returns (OObj result) ∧
    duplicate_free result ∧
    sublist result array ∧
    (∀ theme recommendedTheme,
       OObj theme ∈ result → recommendedTheme ∈ getRecommendedThemes state →
       id theme ≠ id recommendedTheme) ∧
    (∀ theme,
       OObj theme ∈ array →
       (∀ recommendedTheme, recommendedTheme ∈ getRecommendedThemes state →
                            id theme ≠ id recommendedTheme) →
       ∃ entry, entry ∈ result ∧ same_value_zero (OObj theme) entry = true).
Proof.
  intros Hmanager Harray Hdefault Hobjects.
  unfold getThemesForQueryIgnoringPage. rewrite Hmanager, Harray.
  unfold is_filtered in Hdefault. rewrite Hdefault. cbn [negb].
  rewrite recommended_ids_themes.
  destruct (filter_out_ids_objects (id <$> getRecommendedThemes state) array
              Hobjects) as (kept & -> & Hsub & Hkept).
  destruct (uniq_spec kept) as (Hfree & Huniq & Hcover).
  exists (uniq kept). split; [done|]. split; [done|].
  split; [by etrans|]. split.
  - intros theme recommendedTheme Hin Hrecommended Heq.
    apply (elem_of_sublist _ _ _ Hin), Hkept in Huniq
      as (_ & other & [= <-] & Hfree').
    apply Hfree'. rewrite Heq. by apply list_elem_of_fmap_2.
  - intros theme Hin Hother. apply Hcover, Hkept. split; [done|].
    exists theme. split; [done|].
    intros (recommendedTheme & Heq & Hrecommended)%list_elem_of_fmap.
    by apply (Hother recommendedTheme).
Qed.

Lemma valid_results_same {R : Type} (dependant : N) (results : gmap string R) :
  valid_results dependant {| lastDependant := Some dependant; results := results |}
  = results.
Proof. unfold valid_results. cbn. by rewrite N.eqb_refl. Qed.

(** X12. [getThemesForQueryIgnoringPage], with its cache, for a query without
    search text, filter and tier over a collection whose entries for the
    query are all theme objects.  When the cache holds no valid result under
    the key of the query, the selector returns an array that holds no value
    twice, keeps the order of the collection, holds no theme whose id is the
    id of a theme recommended in this state, and holds every other theme of
    the collection.  As long as [state.themes.queries] stays the same object,
    a later call under the same key returns that same array, whatever the
    themes recommended by then: the cache does not depend on the recommended
    themes, so the array may hold a theme that has become recommended. *)
Theorem getThemesForQueryIgnoringPage_default `{ThemesEnvironmentRest}
    (state later : State) (siteId : option site_id) (query : Query)
    (manager : ThemeQueryManagerPaging) (array : list (nullable Theme))
    (cache : SelectorCache (nullable (list (nullable Theme)))) :
  paging_of state siteId = Some manager →
  getItemsIgnoringPage manager query = OObj array →
  is_filtered query = false →
  Forall is_object array →
  valid_results (queries_identity state) cache
    !! getSerializedThemesQueryWithoutPage query siteId = None →
  ∃ result,
    fst (getThemesForQueryIgnoringPage_cached state siteId query cache) =
      Returns (OObj result) ∧
    duplicate_free result ∧
    sublist result array ∧
    (∀ theme recommendedTheme,
       OObj theme ∈ result → recommendedTheme ∈ getRecommendedThemes state →
       id theme ≠ id recommendedTheme) ∧
    (∀ theme,
       OObj theme ∈ array →
       (∀ recommendedTheme, recommendedTheme ∈ getRecommendedThemes state →
                            id theme ≠ id recommendedTheme) →
       ∃ entry, entry ∈ result ∧ same_value_zero (OObj theme) entry = true) ∧
    (queries_identity later = queries_identity state →
     fst (getThemesForQueryIgnoringPage_cached later siteId query
            (snd (getThemesForQueryIgnoringPage_cached state siteId query cache))) =
       Returns (OObj result)).
Proof.
  intros Hmanager Harray Hdefault Hobjects Hmiss.
  destruct (getThemesForQueryIgnoringPage_computed state siteId query manager
              array Hmanager Harray Hdefault Hobjects)
    as (result & Hcomputed & Hfree & Hsub & Hrecommended & Hcover).
  exists result.
  unfold getThemesForQueryIgnoringPage_cached, createSelector.
  rewrite Hmiss, Hcomputed. cbn [fst snd].
  repeat (split; [done|]).
  intros ->. rewrite valid_results_same, lookup_insert_eq. done.
Qed.

(** One collection, two states.  With [mood] recommended the first call
    returns an array without [mood] that holds [twentysixteen]; the call
    after [twentysixteen] became the recommended theme returns the same array
    from the cache. *)
Lemma getThemesForQueryIgnoringPage_default_witness :
  ∃ result,
    fst (getThemesForQueryIgnoringPage_cached (H := Demo.recommending_rest_env)
           (OObj [Demo.mood]) (Some Wpcom) Demo.default_query Demo.empty_cache) =
      Returns (OObj result) ∧
    (∀ theme, OObj theme ∈ result → id theme ≠ "mood") ∧
    (∃ entry, entry ∈ result ∧
              same_value_zero (OObj Demo.twentysixteen) entry = true) ∧
    Demo.twentysixteen ∈
      getRecommendedThemes (H := Demo.recommending_themes_env)
        (OObj [Demo.twentysixteen]) ∧
    fst (getThemesForQueryIgnoringPage_cached (H := Demo.recommending_rest_env)
           (OObj [Demo.twentysixteen]) (Some Wpcom) Demo.default_query
           (snd (getThemesForQueryIgnoringPage_cached
                   (H := Demo.recommending_rest_env)
                   (OObj [Demo.mood]) (Some Wpcom) Demo.default_query
                   Demo.empty_cache))) =
      Returns (OObj result).
Proof.
  destruct (getThemesForQueryIgnoringPage_default
              (H := Demo.recommending_rest_env)
              (OObj [Demo.mood]) (OObj [Demo.twentysixteen]) (Some Wpcom)
              Demo.default_query Demo.wpcom_paging
              [OObj Demo.twentysixteen; OObj Demo.mood; OObj Demo.twentysixteen]
              Demo.empty_cache eq_refl eq_refl eq_refl)
    as (result & Hresult & _ & _ & Hrecommended & Hcover & Hlater).
  - repeat constructor; by eexists.
  - reflexivity.
  - exists result. split; [done|]. split; [|split; [|split]].
    + intros theme Hin. apply (Hrecommended theme Demo.mood Hin).
      apply elem_of_cons. by left.
    + apply Hcover; [apply elem_of_cons; by left|].
      intros recommendedTheme Hin.
      apply list_elem_of_singleton in Hin as ->. discriminate.
    + apply elem_of_cons. by left.
    + by apply Hlater.
Defined.

(** X13. [getThemesForQueryIgnoringPage] returns [null] for a site without a
    collection and for a collection that yields no array.  For a query with a
    search text, a filter or a tier it returns the yielded array without
    duplicates and reads no entry.  For a query without them it reads the id
    of every entry, so it throws a [TypeError] when an entry of the array is
    [null] or [undefined]. *)
Theorem getThemesForQueryIgnoringPage_edges `{ThemesEnvironment}
    (state : State) (siteId : option site_id) (query : Query) :
  (paging_of state siteId = None →
   getThemesForQueryIgnoringPage state siteId query = Returns ONull) ∧
  (∀ manager,
     paging_of state siteId = Some manager →
     (getItemsIgnoringPage manager query = ONull ∨
      getItemsIgnoringPage manager query = OUndefined →
      getThemesForQueryIgnoringPage state siteId query = Returns ONull) ∧
     (∀ array,
        getItemsIgnoringPage manager query = OObj array →
        (is_filtered query = true →
         getThemesForQueryIgnoringPage state siteId query =
           Returns (OObj (uniq array))) ∧
        (is_filtered query = false → ¬ Forall is_object array →
         getThemesForQueryIgnoringPage state siteId query = TypeError))).
Proof.
  unfold getThemesForQueryIgnoringPage, is_filtered. split.
  - by intros ->.
  - intros manager ->. split.
    + by intros [-> | ->].
    + intros array ->. split.
      * by intros ->.
      * intros -> Hnot. cbn [negb]. by rewrite filter_out_ids_throws.
Qed.

(** ** Requests in flight *)

(** X14. [isRequestingThemesForQueryIgnoringPage], with its cache, when the
    cache holds no valid result under the key of the query.  For a site id
    that is not [null]: when the serialized key of the query reads back as
    the site id and the normalized query, a request in flight for the query
    is also a request in flight for the query ignoring its page.  For the
    site id [null] no request is reported, because a site id read from a key
    is never [null]. *)
Theorem isRequestingThemesForQuery_ignoring_page `{ThemesEnvironmentRest}
    (state : State) (siteId : nullable site_id) (query : Query)
    (cache : SelectorCache bool) :
  valid_results (queryRequests_identity state) cache
    !! getSerializedThemesQuery query (optional siteId) = None →
  (siteId ≠ ONull →
   getDeserializedThemesQueryDetails
     (getSerializedThemesQuery query (optional siteId)) =
     {| details_siteId := optional siteId;
        details_query := Some (getNormalizedThemesQuery query) |} →
   isRequestingThemesForQuery state (optional siteId) query = true →
   fst (isRequestingThemesForQueryIgnoringPage_cached state siteId query cache)
   = Returns true) ∧
  (siteId = ONull →
   fst (isRequestingThemesForQueryIgnoringPage_cached state siteId query cache)
   = Returns false).
Proof.
  intros Hmiss.
  unfold isRequestingThemesForQueryIgnoringPage_cached, createSelector.
  rewrite Hmiss. cbn [fst].
  unfold isRequestingThemesForQuery, isRequestingThemesForQueryIgnoringPage.
  split.
  - intros Hsite Hreadback.
    destruct (queryRequests (themes_more state)
                !! getSerializedThemesQuery query (optional siteId))
      as [[|]|] eqn:Erequest; try discriminate.
    intros _. f_equal. apply existsb_exists.
    exists (getSerializedThemesQuery query (optional siteId), true). split.
    + by apply list_elem_of_In, elem_of_map_to_list.
    + cbn. rewrite Hreadback. cbn.
      assert (same_site (optional siteId) siteId = true) as ->.
      { destruct siteId; cbn; [done | done | by rewrite bool_decide_eq_true_2]. }
      cbn. by rewrite bool_decide_eq_true_2.
  - intros ->. f_equal. apply not_true_iff_false.
    intros ([serializedQuery isRequesting] & _ & Hmatch)%existsb_exists.
    cbn in Hmatch. destruct isRequesting; [|discriminate]. cbn in Hmatch.
    discriminate Hmatch.
Qed.

(** The request in flight for the WordPress.com themes is found with the
    site id [wpcom] and is not found with the site id [null]. *)
Lemma isRequestingThemesForQuery_ignoring_page_witness :
  fst (isRequestingThemesForQueryIgnoringPage_cached (H := Demo.rest_env)
         Demo.themes_state_jetpack (OObj Wpcom) Demo.default_query
         Demo.empty_cache) = Returns true ∧
  fst (isRequestingThemesForQueryIgnoringPage_cached (H := Demo.rest_env)
         Demo.themes_state_jetpack ONull Demo.default_query
         Demo.empty_cache) = Returns false.
Proof.
  pose proof (isRequestingThemesForQuery_ignoring_page (H := Demo.rest_env)
                Demo.themes_state_jetpack (OObj Wpcom) Demo.default_query
                Demo.empty_cache eq_refl)
    as (Hsite & _).
  pose proof (isRequestingThemesForQuery_ignoring_page (H := Demo.rest_env)
                Demo.themes_state_jetpack ONull Demo.default_query
                Demo.empty_cache eq_refl)
    as (_ & Hnull).
  split.
  - apply Hsite; [discriminate | reflexivity | reflexivity].
  - by apply Hnull.
Defined.

Lemma getThemesForQueryIgnoringPage_edges_witness :
  getThemesForQueryIgnoringPage (H := Demo.themes_env) Demo.themes_state_jetpack
    (Some Wporg) Demo.search_query =
    Returns (OObj [OObj Demo.twentysixteen_org; OUndefined]) ∧
  getThemesForQueryIgnoringPage (H := Demo.themes_env) Demo.themes_state_jetpack
    (Some Wporg) Demo.default_query = TypeError.
Proof.
  pose proof (getThemesForQueryIgnoringPage_edges (H := Demo.themes_env)
                Demo.themes_state_jetpack (Some Wporg) Demo.search_query)
    as (_ & Hsearch).
  pose proof (getThemesForQueryIgnoringPage_edges (H := Demo.themes_env)
                Demo.themes_state_jetpack (Some Wporg) Demo.default_query)
    as (_ & Hdefault).
  destruct (Hsearch Demo.wporg_paging eq_refl) as (_ & Hsearch').
  destruct (Hsearch' _ eq_refl) as (Hkept & _).
  destruct (Hdefault Demo.wporg_paging eq_refl) as (_ & Hdefault').
  destruct (Hdefault' _ eq_refl) as (_ & Hthrows).
  split.
  - by rewrite Hkept.
  - apply Hthrows; [reflexivity|].
    intros Hobjects. apply Forall_cons in Hobjects as (_ & Hrest).
    apply Forall_cons in Hrest as ([theme [=]] & _).
Defined.

(** ** Availability on a Jetpack site *)

(** X15. A theme that [isThemeAvailableOnJetpackSite] reports as available
    has a canonical record, and on a site whose wpcom themes are filtered
    from the list of installed themes every theme of the wpcom directory is
    available. *)
Theorem isThemeAvailableOnJetpackSite_known `{ThemesEnvironment}
    (state : State) (themeId : jsval) (siteId : option site_id) :
  (isThemeAvailableOnJetpackSite state themeId siteId = true →
   truthy_obj (getCanonicalTheme state siteId themeId) = true) ∧
  (shouldFilterWpcomThemes state siteId = true →
   isWpcomTheme state themeId = true →
   isThemeAvailableOnJetpackSite state themeId siteId = true).
Proof.
  unfold isThemeAvailableOnJetpackSite, shouldFilterWpcomThemes, isWpcomTheme.
  split.
  - rewrite getCanonicalTheme_chain.
    destruct (truthy_obj (getTheme state (Some Wpcom) themeId)) eqn:Ecom;
      [done|].
    rewrite andb_false_l, orb_false_r. intros Hsite.
    destruct (truthy_obj (getTheme state (Some Wporg) themeId)) eqn:Eorg;
      [done|].
    by rewrite Hsite.
  - intros Hfilter ->.
    apply andb_true_iff in Hfilter as [Hfilter _].
    apply andb_true_iff in Hfilter as [_ ->]. by rewrite orb_true_r.
Qed.

Lemma isThemeAvailableOnJetpackSite_known_witness :
  truthy_obj (getCanonicalTheme (H := Demo.jetpack_env) Demo.themes_state_jetpack
                Demo.site7 (JStr "mood")) = true ∧
  isThemeAvailableOnJetpackSite (H := Demo.jetpack_env) Demo.themes_state_jetpack
    (JStr "mood") Demo.site7 = true.
Proof.
  pose proof (isThemeAvailableOnJetpackSite_known (H := Demo.themes_env)
                Demo.themes_state_jetpack (JStr "mood") Demo.site7)
    as (Hknown & Hfiltered).
  split.
  - apply Hknown. reflexivity.
  - apply Hfiltered; reflexivity.
Defined.

(** ** Upgrade and purchase URLs *)

(** X16. [getJetpackUpgradeUrlIfPremiumTheme] and [getThemePurchaseUrl] never
    both return a URL for the same theme and site.  For a premium theme that
    is not available on a Jetpack site, the upgrade URL is the checkout path
    of the Professional plan and the price shown is the label "Upgrade". *)
Theorem getJetpackUpgradeUrlIfPremiumTheme_or_purchase `{Environment}
    (state : State) (themeId : jsval) (siteId : option site_id) :
  (getJetpackUpgradeUrlIfPremiumTheme state themeId siteId = JNull ∨
   getThemePurchaseUrl state themeId siteId = JNull) ∧
  (isJetpackSite state siteId = true →
   isThemePremium state themeId = true →
   isPremiumThemeAvailable state themeId siteId = false →
   getJetpackUpgradeUrlIfPremiumTheme state themeId siteId =
     JStr ("/checkout/" +:+ to_string (getSiteSlug state siteId) +:+
           "/professional") ∧
   getPremiumThemePrice state themeId siteId = JStr (translate "Upgrade")).
Proof.
  unfold getJetpackUpgradeUrlIfPremiumTheme, getThemePurchaseUrl,
    getPremiumThemePrice. split.
  - destruct (isJetpackSite state siteId); [by right | by left].
  - intros -> -> Havailable. rewrite Havailable.
    unfold isPremiumThemeAvailable in Havailable.
    apply orb_false_iff in Havailable as [_ ->]. done.
Qed.

Lemma getJetpackUpgradeUrlIfPremiumTheme_or_purchase_witness :
  getJetpackUpgradeUrlIfPremiumTheme (H := Demo.jetpack_env)
    Demo.themes_state_jetpack (JStr "mood") Demo.site7 =
    JStr "/checkout/example.org/professional" ∧
  getPremiumThemePrice (H := Demo.jetpack_env) Demo.themes_state_jetpack
    (JStr "mood") Demo.site7 = JStr "Upgrade".
Proof.
  pose proof (getJetpackUpgradeUrlIfPremiumTheme_or_purchase
                (H := Demo.jetpack_env) Demo.themes_state_jetpack (JStr "mood")
                Demo.site7) as (_ & Hupgrade).
  apply Hupgrade; reflexivity.
Defined.

(** ** Theme features *)

Lemma intersection_fold (other array : list string) : ∀ result value,
  value ∈ fold_left
    (λ result value,
       if bool_decide (value ∈ result) || negb (bool_decide (value ∈ other))
       then result else result ++ [value])
    array result ↔
  value ∈ result ∨ (value ∈ array ∧ value ∈ other).
Proof.
  induction array as [|first array IH]; intros result value; cbn [fold_left].
  - split; [by left|]. intros [Hin | [Hnil _]]; [done|].
    by apply not_elem_of_nil in Hnil.
  - rewrite IH, elem_of_cons.
    destruct (bool_decide (first ∈ result)) eqn:Eseen; cbn [orb].
    + apply bool_decide_eq_true in Eseen. split; [tauto|].
      intros [Hin | [[-> | Hin] Hother]]; tauto.
    + destruct (bool_decide (first ∈ other)) eqn:Eother; cbn [negb].
      * apply bool_decide_eq_true in Eother.
        rewrite elem_of_app, list_elem_of_singleton. split.
        -- intros [[Hin | ->] | Hin]; tauto.
        -- intros [Hin | [[-> | Hin] Hother]]; tauto.
      * apply bool_decide_eq_false in Eother. split; [tauto|].
        intros [Hin | [[-> | Hin] Hother]]; tauto.
Qed.

Lemma intersection_spec (array other : list string) (value : string) :
  value ∈ intersection array other ↔ value ∈ array ∧ value ∈ other.
Proof.
  unfold intersection. rewrite intersection_fold. split; [|tauto].
  intros [Hnil | Hin]; [|done]. by apply not_elem_of_nil in Hnil.
Qed.

(** X17. A theme is Gutenberg-first exactly when its features hold
    [global-styles] or [auto-loading-homepage]; in particular every theme
    with an auto-loading homepage is Gutenberg-first. *)
Theorem isThemeGutenbergFirst_features `{ThemesEnvironment} (state : State)
    (themeId : jsval) :
  (isThemeGutenbergFirst state themeId = true ↔
     "global-styles" ∈
       getThemeTaxonomySlugs (getTheme state (Some Wpcom) themeId) "theme_feature" ∨
     "auto-loading-homepage" ∈
       getThemeTaxonomySlugs (getTheme state (Some Wpcom) themeId) "theme_feature") ∧
  (themeHasAutoLoadingHomepage state themeId = true →
   isThemeGutenbergFirst state themeId = true).
Proof.
  unfold isThemeGutenbergFirst, themeHasAutoLoadingHomepage.
  set (features := getThemeTaxonomySlugs _ _).
  assert (negb (length (intersection features
                          ["global-styles"; "auto-loading-homepage"]) =? 0) = true ↔
          "global-styles" ∈ features ∨ "auto-loading-homepage" ∈ features) as Hiff.
  { rewrite negb_true_iff, Nat.eqb_neq. split.
    - destruct (intersection features _) as [|value rest] eqn:Einter; [done|].
      intros _. assert (value ∈ intersection features
                          ["global-styles"; "auto-loading-homepage"]) as Hin.
      { rewrite Einter. apply elem_of_cons. by left. }
      apply intersection_spec in Hin as [Hin Hneeded].
      apply elem_of_cons in Hneeded as [-> | Hneeded]; [by left|].
      apply list_elem_of_singleton in Hneeded as ->. by right.
    - intros Hheld Hempty. apply length_zero_iff_nil in Hempty.
      assert (∃ value, value ∈ intersection features
                         ["global-styles"; "auto-loading-homepage"]) as [value Hin].
      { destruct Hheld as [Hin | Hin]; eexists; apply intersection_spec;
          (split; [exact Hin|]); rewrite !elem_of_cons; tauto. }
      rewrite Hempty in Hin. by apply not_elem_of_nil in Hin. }
  split; [done|].
  intros Hhomepage%bool_decide_eq_true. apply Hiff. by right.
Qed.

Lemma isThemeGutenbergFirst_features_witness :
  isThemeGutenbergFirst (H := Demo.themes_env) Demo.themes_state_jetpack
    (JStr "mood") = true.
Proof.
  pose proof (isThemeGutenbergFirst_features (H := Demo.themes_env)
                Demo.themes_state_jetpack (JStr "mood")) as (_ & Hhomepage).
  apply Hhomepage. reflexivity.
Defined.

(** ** The checkout demo page *)



(** X19. The [demo] store keeps the country last set: [getCountry] reads
    back the payload of [setCountry], a second [setCountry] replaces the
    first, every other property of the state is kept, an action of another
    type leaves the state as it is, and a state that never saw [setCountry]
    has no country. *)
Theorem demo_store_country (state : option (gmap string jsval))
    (country other : jsval) (action : CheckoutDemo.Action) :
  CheckoutDemo.getCountry
    (CheckoutDemo.reducer state (CheckoutDemo.setCountry country)) = country ∧
  CheckoutDemo.reducer
    (Some (CheckoutDemo.reducer state (CheckoutDemo.setCountry other)))
    (CheckoutDemo.setCountry country) =
    CheckoutDemo.reducer state (CheckoutDemo.setCountry country) ∧
  (∀ key : string, key ≠ "country" →
     CheckoutDemo.reducer state (CheckoutDemo.setCountry country) !! key =
     default ∅ state !! key) ∧
  (CheckoutDemo.action_type action ≠ "set_country" →
   CheckoutDemo.reducer state action = default ∅ state) ∧
  CheckoutDemo.getCountry (CheckoutDemo.reducer None action) =
    (if String.eqb (CheckoutDemo.action_type action) "set_country"
     then CheckoutDemo.payload action else JUndefined).
Proof.
  unfold CheckoutDemo.getCountry, CheckoutDemo.reducer, CheckoutDemo.setCountry.
  cbn [CheckoutDemo.action_type CheckoutDemo.payload String.eqb Ascii.eqb
       Bool.eqb default from_option].
  split; [|split; [|split; [|split]]].
  - by rewrite lookup_insert_eq.
  - cbn. by rewrite insert_insert_eq.
  - intros key Hkey. by rewrite lookup_insert_ne.
  - intros Hother%String.eqb_neq. by rewrite Hother.
  - destruct (String.eqb _ _); cbn.
    + by rewrite lookup_insert_eq.
    + by rewrite lookup_empty.
Qed.

Lemma demo_store_country_witness :
  CheckoutDemo.getCountry
    (CheckoutDemo.reducer None (CheckoutDemo.setCountry (JStr "US"))) = JStr "US" ∧
  CheckoutDemo.reducer None
    {| CheckoutDemo.action_type := "reset"; CheckoutDemo.payload := JNull |} = ∅.
Proof.
  pose proof (demo_store_country None (JStr "US") JNull
                {| CheckoutDemo.action_type := "reset";
                   CheckoutDemo.payload := JNull |})
    as (Hread & _ & _ & Hother & _).
  split; [exact Hread|]. apply Hother. discriminate.
Defined.

(** X20. When the last item is in [USD], [getTotal] returns a total labelled
    [Total] in [USD] whose value is the sum of the values of all items and
    whose display value is [$] followed by the rendering of that sum divided
    by 100; the currencies of the other items are not looked at. *)
Theorem getTotal_last_item_USD (toString : float → string)
    (items : list CheckoutDemo.LineItem) (final : CheckoutDemo.LineItem) :
  CheckoutDemo.currency (CheckoutDemo.amount final) = "USD" →
  CheckoutDemo.getTotal toString (items ++ [final]) =
    let sum :=
      fold_left (λ sum item,
                   (sum + CheckoutDemo.value (CheckoutDemo.amount item))%float)
                (items ++ [final]) 0%float in
    CheckoutDemo.Normal
      {| CheckoutDemo.label := "Total";
         CheckoutDemo.amount :=
           {| CheckoutDemo.currency := "USD";
              CheckoutDemo.value := sum;
              CheckoutDemo.displayValue := "$" +:+ toString (sum / 100)%float |} |}.
Proof.
  intros Husd. unfold CheckoutDemo.getTotal.
  rewrite fold_last_currency, last_snoc. cbn [fmap option_fmap option_map default].
  cbn. rewrite Husd. by rewrite formatValueForCurrency_USD.
Qed.

Lemma getTotal_last_item_USD_witness :
  ∃ total,
    CheckoutDemo.getTotal (λ _, "60")
      [ {| CheckoutDemo.label := "Plan";
           CheckoutDemo.amount := {| CheckoutDemo.currency := "EUR";
                                     CheckoutDemo.value := 6000;
                                     CheckoutDemo.displayValue := "60" |} |};
        {| CheckoutDemo.label := "Domain";
           CheckoutDemo.amount := {| CheckoutDemo.currency := "USD";
                                     CheckoutDemo.value := 0;
                                     CheckoutDemo.displayValue := "0" |} |} ] =
    CheckoutDemo.Normal total.
Proof.
  eexists.
  apply (getTotal_last_item_USD (λ _, "60")
           [ {| CheckoutDemo.label := "Plan";
                CheckoutDemo.amount := {| CheckoutDemo.currency := "EUR";
                                          CheckoutDemo.value := 6000;
                                          CheckoutDemo.displayValue := "60" |} |} ]
           {| CheckoutDemo.label := "Domain";
              CheckoutDemo.amount := {| CheckoutDemo.currency := "USD";
                                        CheckoutDemo.value := 0;
                                        CheckoutDemo.displayValue := "0" |} |}).
  reflexivity.
Defined.

(** ** Errors: what throws and what degrades *)




